(** * Tally-compatible GST recalculation of a Sales Invoice

    Shallow embedding of
    [calculate_tax_like_tally/overrides/sales_invoice.py]
    (class [TallyTaxSalesInvoice]): the rounding helpers [round_half] and
    [round_half_up], and the method [apply_tally_tax_calculation], which
    rewrites the line items, the tax rows and the document totals of an
    invoice after the host framework's own tax pass.

    Python numbers are kept behind a small interface ([PyNum]) that lists
    exactly the operations the method performs on them.  Everything that
    follows from the shape of the code alone is proved for every
    implementation of that interface.  Two implementations are given:
    binary64 floats (what CPython computes with), on which the facts
    about sums of tax rows are proved from the IEEE 754 specification
    of addition, and exact rationals, on which the bounds of the
    rounding helpers are proved. *)

From Stdlib Require Import ZArith QArith Qround Qabs List String Ascii Bool.
From Stdlib Require Import Lia Lqa Morphisms Setoid.
From Stdlib Require Import Floats.
Import ListNotations.

Set Implicit Arguments.

(** ** Numbers *)

(** The operations of Python's [float] (and of [int] where the two mix)
    that the source uses.  [py_float] is [float(i)], also the implicit
    conversion of an [int] operand; [py_int] is [int(x)], truncation
    toward zero; [py_floor] is [frappe.utils.floor]; [py_ge], [py_gt]
    and [py_eq] are [>=], [>] and [==]; [py_half] is the literal [0.5]. *)
Class PyNum : Type := {
  num : Type;
  py_float : Z -> num;
  py_add : num -> num -> num;
  py_sub : num -> num -> num;
  py_mul : num -> num -> num;
  py_div : num -> num -> num;
  py_ge : num -> num -> bool;
  py_gt : num -> num -> bool;
  py_eq : num -> num -> bool;
  py_int : num -> Z;
  py_floor : num -> Z;
  py_half : num
}.

Arguments py_float {_} _%_Z.

Declare Scope py_scope.
Delimit Scope py_scope with py.
Notation "x + y" := (py_add x y) : py_scope.
Notation "x - y" := (py_sub x y) : py_scope.
Notation "x * y" := (py_mul x y) : py_scope.
Notation "x / y" := (py_div x y) : py_scope.
Notation "x >=? y" := (py_ge x y) : py_scope.
Notation "x >? y" := (py_gt x y) : py_scope.

(** ** Strings *)

Definition lower_ascii (c : ascii) : ascii :=
  let n := nat_of_ascii c in
  if (65 <=? n)%nat && (n <=? 90)%nat then ascii_of_nat (n + 32) else c.

(** [str.lower] on the ASCII letters, the only ones the four patterns
    of the classifier can match. *)
Fixpoint lower (s : string) : string :=
  match s with
  | EmptyString => EmptyString
  | String c s' => String (lower_ascii c) (lower s')
  end.

(** [pat in s] on strings. *)
Fixpoint str_in (pat s : string) : bool :=
  String.prefix pat s ||
  match s with
  | EmptyString => false
  | String _ s' => str_in pat s'
  end.

(** ** Dictionaries

    A Python [dict] keeps its keys in insertion order; [d[k] = v]
    replaces the value of a key already present, in place, and appends
    a new key at the end. *)
Section Dict.
Variable V : Type.

Definition dict := list (string * V).

Fixpoint dict_set (k : string) (v : V) (d : dict) : dict :=
  match d with
  | [] => [(k, v)]
  | (k', v') :: d' =>
      if String.eqb k k' then (k, v) :: d' else (k', v') :: dict_set k v d'
  end.

Fixpoint dict_get (k : string) (d : dict) : option V :=
  match d with
  | [] => None
  | (k', v') :: d' => if String.eqb k k' then Some v' else dict_get k d'
  end.
End Dict.

(** ** The engine *)

Section Engine.
Context {N : PyNum}.
Local Open Scope py_scope.

(** [bool(x)] of a number. *)
Definition py_truth (x : num) : bool := negb (py_eq x (py_float 0)).

(** [flt(v or 0)]: a missing or [None] field, and a zero, give 0. *)
Definition flt_or0 (v : option num) : num :=
  match v with
  | Some x => if py_truth x then x else py_float 0
  | None => py_float 0
  end.

(** [round_half(n, decimals)]:
    [multiplier = 10 ** decimals;
     float(int(n * multiplier + 0.5)) / multiplier]. *)
Definition round_half (n : num) (decimals : nat) : num :=
  let multiplier := (10 ^ Z.of_nat decimals)%Z in
  py_float (py_int (n * py_float multiplier + py_half)) / py_float multiplier.

(** [round_half_up(n)]. *)
Definition round_half_up (n : num) : Z :=
  let decimal_part := n - py_float (py_int n) in
  if decimal_part >=? py_half then (py_int n + 1)%Z else py_int n.

(** *** Data model *)

(** A row of [self.items].  The three rates and the amount are read
    with [item.get(..., 0) or 0], so they may be missing. *)
Record LineItem : Type := {
  item_code : string;
  amount : option num;
  cgst_rate : option num;
  sgst_rate : option num;
  igst_rate : option num;
  cgst_amount : num;
  sgst_amount : num;
  igst_amount : num
}.

(** A breakup mapping [{item_code: [rate, amount]}]. *)
Definition breakup := dict (num * num).

(** The text of [item_wise_tax_detail]: what the host left there, or
    the result of [json.dumps] on a breakup mapping, which is kept
    symbolic (the text is determined by the mapping, key order
    included). *)
Inductive detail_text : Type :=
| host_text (s : string)
| json_dumps (d : breakup).

(** A row of [self.taxes]. *)
Record TaxRow : Type := {
  gst_tax_type : option string;
  account_head : string;
  tax_amount : num;
  base_tax_amount : num;
  tax_amount_after_discount_amount : num;
  base_tax_amount_after_discount_amount : num;
  item_wise_tax_detail : detail_text;
  row_total : num;        (* tax.total *)
  row_base_total : num    (* tax.base_total *)
}.

(** The invoice document (the fields the controller touches). *)
Record SalesInvoice : Type := {
  items : list LineItem;
  taxes : list TaxRow;
  is_return : bool;
  docstatus : Z;
  net_total : option num;
  base_total : option num;
  total_taxes_and_charges : num;
  base_total_taxes_and_charges : num;
  grand_total : num;
  base_grand_total : num;
  rounding_adjustment : num;
  rounded_total : num;
  base_rounded_total : num;
  outstanding_amount : num
}.

(** *** Step 1: the loop over the items *)

(** The six local variables the loop updates. *)
Record Totals : Type := {
  total_cgst : num;
  total_sgst : num;
  total_igst : num;
  cgst_item_wise : breakup;
  sgst_item_wise : breakup;
  igst_item_wise : breakup
}.

Definition totals_init : Totals :=
  {| total_cgst := py_float 0; total_sgst := py_float 0;
     total_igst := py_float 0;
     cgst_item_wise := []; sgst_item_wise := []; igst_item_wise := [] |}.

(** The tax of one item for one rate:
    [round_half(amount * rate / 100, 2)]. *)
Definition item_tax (item : LineItem) (rate : option num) : num :=
  round_half (flt_or0 (amount item) * flt_or0 rate / py_float 100) 2.

(** The three assignments [item.cgst_amount = ...]. *)
Definition store_amounts (item : LineItem) (c s i : num) : LineItem :=
  {| item_code := item_code item; amount := amount item;
     cgst_rate := cgst_rate item; sgst_rate := sgst_rate item;
     igst_rate := igst_rate item;
     cgst_amount := c; sgst_amount := s; igst_amount := i |}.

(** [if rate > 0: item_wise[item.item_code] = [rate, amount]]. *)
Definition record_entry (item : LineItem) (rate amt : num) (d : breakup)
  : breakup :=
  if rate >? py_float 0 then dict_set (item_code item) (rate, amt) d else d.

(** One pass of the body of [for item in self.items]. *)
Definition item_body (st : Totals) (item : LineItem) : Totals * LineItem :=
  let v_cgst_rate := flt_or0 (cgst_rate item) in
  let v_sgst_rate := flt_or0 (sgst_rate item) in
  let v_igst_rate := flt_or0 (igst_rate item) in
  let v_cgst_amount := item_tax item (cgst_rate item) in
  let v_sgst_amount := item_tax item (sgst_rate item) in
  let v_igst_amount := item_tax item (igst_rate item) in
  ({| total_cgst := total_cgst st + v_cgst_amount;
      total_sgst := total_sgst st + v_sgst_amount;
      total_igst := total_igst st + v_igst_amount;
      cgst_item_wise :=
        record_entry item v_cgst_rate v_cgst_amount (cgst_item_wise st);
      sgst_item_wise :=
        record_entry item v_sgst_rate v_sgst_amount (sgst_item_wise st);
      igst_item_wise :=
        record_entry item v_igst_rate v_igst_amount (igst_item_wise st) |},
   store_amounts item v_cgst_amount v_sgst_amount v_igst_amount).

Fixpoint items_loop (st : Totals) (l : list LineItem)
  : Totals * list LineItem :=
  match l with
  | [] => (st, [])
  | item :: l' =>
      let (st1, item1) := item_body st item in
      let (st2, l2) := items_loop st1 l' in
      (st2, item1 :: l2)
  end.

(** *** Step 3: the loop over the tax rows *)

(** [(tax.get('gst_tax_type', "") or tax.get("account_head", "")).lower()] *)
Definition classifier (tax : TaxRow) : string :=
  lower match gst_tax_type tax with
        | Some EmptyString | None => account_head tax
        | Some s => s
        end.

(** The five assignments of one branch of the [if]/[elif] chain. *)
Definition set_tax (tax : TaxRow) (v : num) (d : breakup) : TaxRow :=
  {| gst_tax_type := gst_tax_type tax; account_head := account_head tax;
     tax_amount := v; base_tax_amount := v;
     tax_amount_after_discount_amount := v;
     base_tax_amount_after_discount_amount := v;
     item_wise_tax_detail := json_dumps d;
     row_total := row_total tax; row_base_total := row_base_total tax |}.

Definition tax_body (st : Totals) (tax : TaxRow) : TaxRow :=
  let t := classifier tax in
  if str_in "cgst" t then set_tax tax (total_cgst st) (cgst_item_wise st)
  else if str_in "sgst" t || str_in "utgst" t
    then set_tax tax (total_sgst st) (sgst_item_wise st)
  else if str_in "igst" t then set_tax tax (total_igst st) (igst_item_wise st)
  else tax.

(** *** Step 4: the running totals *)

(** [tax.total = v; tax.base_total = tax.total]. *)
Definition set_running (tax : TaxRow) (v : num) : TaxRow :=
  {| gst_tax_type := gst_tax_type tax; account_head := account_head tax;
     tax_amount := tax_amount tax; base_tax_amount := base_tax_amount tax;
     tax_amount_after_discount_amount :=
       tax_amount_after_discount_amount tax;
     base_tax_amount_after_discount_amount :=
       base_tax_amount_after_discount_amount tax;
     item_wise_tax_detail := item_wise_tax_detail tax;
     row_total := v; row_base_total := v |}.

(** [if len(self.taxes) == 1: ... elif len(self.taxes) == 2: ...] *)
Definition running_totals (doc_base_total : num) (st : Totals)
                          (l : list TaxRow) : list TaxRow :=
  match l with
  | [tax] => [set_running tax (doc_base_total + total_igst st)]
  | [tax1; tax2] =>
      [set_running tax1 (doc_base_total + total_cgst st);
       set_running tax2 (doc_base_total + total_cgst st + total_sgst st)]
  | _ => l
  end.

(** *** The method *)

Definition apply_tally_tax_calculation (self : SalesInvoice) : SalesInvoice :=
  let (st, items1) := items_loop totals_init (items self) in
  let total_tax_amount := total_cgst st + total_sgst st + total_igst st in
  let doc_net_total := flt_or0 (net_total self) in
  let doc_base_total := flt_or0 (base_total self) in
  let v_grand_total := doc_net_total + total_tax_amount in
  let v_base_grand_total := doc_base_total + total_tax_amount in
  let decimal_part :=
    v_base_grand_total - py_float (py_floor v_base_grand_total) in
  let v_base_rounded_total :=
    if decimal_part >=? py_half
    then (py_floor v_base_grand_total + 1)%Z
    else py_floor v_base_grand_total in
  let base_rounding_adjustment :=
    py_float v_base_rounded_total - v_base_grand_total in
  let taxes1 := map (tax_body st) (taxes self) in
  let taxes2 := running_totals doc_base_total st taxes1 in
  {| items := items1;
     taxes := taxes2;
     is_return := is_return self;
     docstatus := docstatus self;
     net_total := net_total self;
     base_total := base_total self;
     total_taxes_and_charges := total_tax_amount;
     base_total_taxes_and_charges := total_tax_amount;
     grand_total := v_grand_total;
     base_grand_total := v_base_grand_total;
     rounding_adjustment := base_rounding_adjustment;
     rounded_total := py_float (round_half_up v_grand_total);
     base_rounded_total := py_float v_base_rounded_total;
     outstanding_amount := py_float v_base_rounded_total |}.

(** [validate]: the host's validation ([super().validate()], taken as
    a parameter), then the engine on a draft that is not a return. *)
Definition validate (super_validate : SalesInvoice -> SalesInvoice)
                    (self : SalesInvoice) : SalesInvoice :=
  let self1 := super_validate self in
  if negb (is_return self1) && (docstatus self1 =? 0)%Z
  then apply_tally_tax_calculation self1
  else self1.

End Engine.

(** ** The wording of the specification

    Second definitions, written from the specification's sentences, to
    be compared with the code's. *)

Section Wording.
Context {N : PyNum}.
Local Open Scope py_scope.

(** Half-Up-N(x, n): scale x by 10^n, add 0.5, truncate to integer,
    divide back by 10^n. *)
Definition Half_Up_N (x : num) (n : nat) : num :=
  let scaled := x * py_float (10 ^ Z.of_nat n) in
  let shifted := scaled + py_half in
  let truncated := py_int shifted in
  py_float truncated / py_float (10 ^ Z.of_nat n).

(** Half-Up-Integer(x): with f the fractional part of x (x minus its
    truncation toward zero), truncate(x) + 1 if f >= 0.5, else
    truncate(x). *)
Definition Half_Up_Integer (x : num) : Z :=
  let f := x - py_float (py_int x) in
  if f >=? py_half then (py_int x + 1)%Z else py_int x.

(** The rounding the method writes out in place for
    [base_rounded_total]: the same test as [round_half_up], on
    [floor] instead of [int]. *)
Definition floor_half_up (x : num) : Z :=
  let decimal_part := x - py_float (py_floor x) in
  if decimal_part >=? py_half then (py_floor x + 1)%Z else py_floor x.

(** A running sum as the loop forms it: [t = 0.0], then [t += x] for
    each [x] in turn. *)
Definition py_sum (l : list num) : num := fold_left py_add l (py_float 0).

(** The four classes of a tax row, in the order the [if]/[elif] chain
    of [tax_body] tests them. *)
Inductive tax_kind : Type := Central | State | Integrated | Unrecognized.

Definition classify (tax : TaxRow) : tax_kind :=
  let t := classifier tax in
  if str_in "cgst" t then Central
  else if str_in "sgst" t || str_in "utgst" t then State
  else if str_in "igst" t then Integrated
  else Unrecognized.

Definition tax_kind_eqb (a b : tax_kind) : bool :=
  match a, b with
  | Central, Central | State, State | Integrated, Integrated
  | Unrecognized, Unrecognized => true
  | _, _ => false
  end.

(** How many rows of a list are of one class. *)
Definition count_kind (k : tax_kind) (l : list TaxRow) : nat :=
  List.length (filter (fun tax => tax_kind_eqb (classify tax) k) l).

(** The item as the loop leaves it. *)
Definition annotate (item : LineItem) : LineItem :=
  store_amounts item (item_tax item (cgst_rate item))
                     (item_tax item (sgst_rate item))
                     (item_tax item (igst_rate item)).

(** One tax type's share of the loop: its running total and its
    breakup mapping, for the rate field [rate] of that type. *)
Definition sum_from (rate : LineItem -> option num) (t0 : num)
                    (l : list LineItem) : num :=
  fold_left (fun t item => t + item_tax item (rate item)) l t0.

Definition breakup_from (rate : LineItem -> option num) (d0 : breakup)
                        (l : list LineItem) : breakup :=
  fold_left (fun d item =>
               record_entry item (flt_or0 (rate item))
                            (item_tax item (rate item)) d) l d0.

(** Every entry of a mapping carries a rate above zero. *)
Definition rates_above_zero (d : breakup) : Prop :=
  forall code r a,
    dict_get code d = Some (r, a) -> (r >? py_float 0) = true.

(** The three tax types, with the item fields and the locals of
    each. *)
Inductive gst : Type := CGST | SGST | IGST.

Definition rate_of (k : gst) : LineItem -> option num :=
  match k with CGST => cgst_rate | SGST => sgst_rate | IGST => igst_rate end.

Definition amount_of (k : gst) : LineItem -> num :=
  match k with
  | CGST => cgst_amount | SGST => sgst_amount | IGST => igst_amount
  end.

Definition item_wise_of (k : gst) : Totals -> breakup :=
  match k with
  | CGST => cgst_item_wise | SGST => sgst_item_wise | IGST => igst_item_wise
  end.

(** The six locals after the loop over [l]. *)
Definition totals_of (l : list LineItem) : Totals :=
  fst (items_loop totals_init l).

End Wording.

(** ** Two implementations of the numbers *)

(** *** binary64 *)

(** [int(x)] of a finite float.  (CPython raises on an infinity or a
    NaN; no statement below evaluates it there.) *)
Definition float_int (x : float) : Z :=
  match Prim2SF x with
  | S754_finite s m e =>
      let v := Z.shiftl (Zpos m) e in if s then (- v)%Z else v
  | _ => 0%Z
  end.

(** [frappe.utils.floor]: [math.floor], and 0 where that raises. *)
Definition float_floor (x : float) : Z :=
  match Prim2SF x with
  | S754_finite s m e => Z.shiftl (if s then Zneg m else Zpos m) e
  | _ => 0%Z
  end.

(** [float(i)], rounding to nearest even. *)
Definition float_of_int (i : Z) : float :=
  SF2Prim (binary_normalize prec emax i 0 false).

#[export] Instance Binary64 : PyNum := {|
  num := float;
  py_float := float_of_int;
  py_add := PrimFloat.add;
  py_sub := PrimFloat.sub;
  py_mul := PrimFloat.mul;
  py_div := PrimFloat.div;
  py_ge := fun x y => PrimFloat.leb y x;
  py_gt := fun x y => PrimFloat.ltb y x;
  py_eq := PrimFloat.eqb;
  py_int := float_int;
  py_floor := float_floor;
  py_half := 0.5%float
|}.

(** *** Exact rationals *)

Definition Q_int (x : Q) : Z := Z.quot (Qnum x) (Zpos (Qden x)).

#[export] Instance Exact : PyNum := {|
  num := Q;
  py_float := inject_Z;
  py_add := Qplus;
  py_sub := Qminus;
  py_mul := Qmult;
  py_div := Qdiv;
  py_ge := fun x y => Qle_bool y x;
  py_gt := fun x y => negb (Qle_bool x y);
  py_eq := Qeq_bool;
  py_int := Q_int;
  py_floor := Qfloor;
  py_half := (1 # 2)%Q
|}.

(** ** Sample invoices *)

Section Samples.
Context {N : PyNum}.
Local Open Scope Z_scope.
Local Open Scope py_scope.
Local Open Scope string_scope.

Definition new_item (code : string) (amt : Z) (c s i : option Z) : LineItem :=
  {| item_code := code; amount := Some (py_float amt);
     cgst_rate := option_map py_float c;
     sgst_rate := option_map py_float s;
     igst_rate := option_map py_float i;
     cgst_amount := py_float 0; sgst_amount := py_float 0;
     igst_amount := py_float 0 |}.

(** A row as the host's pass leaves it: amount [v], running total [t]. *)
Definition new_tax (head : string) (v t : Z) : TaxRow :=
  {| gst_tax_type := None; account_head := head;
     tax_amount := py_float v; base_tax_amount := py_float v;
     tax_amount_after_discount_amount := py_float v;
     base_tax_amount_after_discount_amount := py_float v;
     item_wise_tax_detail := host_text "{}";
     row_total := py_float t; row_base_total := py_float t |}.

Definition new_invoice (l : list LineItem) (r : list TaxRow)
                       (net base : num) : SalesInvoice :=
  {| items := l; taxes := r; is_return := false; docstatus := 0;
     net_total := Some net; base_total := Some base;
     total_taxes_and_charges := py_float 0;
     base_total_taxes_and_charges := py_float 0;
     grand_total := py_float 0; base_grand_total := py_float 0;
     rounding_adjustment := py_float 0; rounded_total := py_float 0;
     base_rounded_total := py_float 0; outstanding_amount := py_float 0 |}.

(** Intrastate: one item of 1000 at 9% + 9%, rows CGST and SGST. *)
Definition intrastate_invoice : SalesInvoice :=
  new_invoice [new_item "ITEM-A" 1000 (Some 9) (Some 9) None]
              [new_tax "Output Tax CGST - K" 90 1090;
               new_tax "Output Tax SGST - K" 90 1180]
              (py_float 1000) (py_float 1000).

(** The same with a freight charge of 50 as a third row. *)
Definition freight_invoice : SalesInvoice :=
  new_invoice [new_item "ITEM-A" 1000 (Some 9) (Some 9) None]
              [new_tax "Output Tax CGST - K" 90 1090;
               new_tax "Output Tax SGST - K" 90 1180;
               new_tax "Freight and Forwarding Charges - K" 50 1230]
              (py_float 1000) (py_float 1000).

(** An untaxed item and a freight charge as the only row. *)
Definition freight_only_invoice : SalesInvoice :=
  new_invoice [new_item "ITEM-A" 1000 None None None]
              [new_tax "Freight and Forwarding Charges - K" 50 1050]
              (py_float 1000) (py_float 1000).

(** The same item code on two lines. *)
Definition repeated_item_invoice : SalesInvoice :=
  new_invoice [new_item "ITEM-A" 100 (Some 9) (Some 9) None;
               new_item "ITEM-A" 200 (Some 9) (Some 9) None]
              [new_tax "Output Tax CGST - K" 27 327;
               new_tax "Output Tax SGST - K" 27 354]
              (py_float 300) (py_float 300).

(** No items, no rows, totals of -2.75. *)
Definition negative_invoice : SalesInvoice :=
  new_invoice [] [] (py_float (-11) / py_float 4)
              (py_float (-11) / py_float 4).

End Samples.

(** ** Further notions *)

Section Notions.
Context {N : PyNum}.
Local Open Scope py_scope.

(** Two items that agree on the fields the loop reads; the three
    amount fields it writes may differ. *)
Definition same_inputs (a b : LineItem) : Prop :=
  item_code a = item_code b /\ amount a = amount b /\
  cgst_rate a = cgst_rate b /\ sgst_rate a = sgst_rate b /\
  igst_rate a = igst_rate b.

(** The tax type whose total and mapping a row of a class receives. *)
Definition gst_of_kind (c : tax_kind) : option gst :=
  match c with
  | Central => Some CGST
  | State => Some SGST
  | Integrated => Some IGST
  | Unrecognized => None
  end.

Definition total_of (k : gst) : Totals -> num :=
  match k with
  | CGST => total_cgst | SGST => total_sgst | IGST => total_igst
  end.

(** The keys of a dictionary, in its order. *)
Definition dict_keys (d : breakup) : list string := map fst d.

(** A rate field that is missing or holds a zero. *)
Definition no_rate (v : option num) : Prop :=
  v = None \/ (exists r, v = Some r /\ py_eq r (py_float 0) = true).

(** Python's view of two numbers as one value: the same object, or
    equal under [==] (which takes 0.0 and -0.0 as equal). *)
Definition py_same (a b : num) : Prop := a = b \/ py_eq a b = true.

(** [x == 0]. *)
Definition py_zero (x : num) : Prop := py_eq x (py_float 0) = true.

(** The tax type of a recognised row. *)
Definition row_gst (tax : TaxRow) : gst :=
  match classify tax with
  | Central => CGST
  | State => SGST
  | _ => IGST
  end.

Definition gst_eqb (a b : gst) : bool :=
  match a, b with
  | CGST, CGST | SGST, SGST | IGST, IGST => true
  | _, _ => false
  end.

(** The tax types whose total is not zero. *)
Definition nonzero_total (v : gst -> num) (k : gst) : bool :=
  negb (py_eq (v k) (py_float 0)).

(** How often a tax type occurs in a list. *)
Definition count_gst (k : gst) (l : list gst) : nat :=
  List.length (filter (gst_eqb k) l).

End Notions.

(** [amount * rate / 100] of an item before rounding, on exact
    rationals. *)
Definition unrounded_tax (item : @LineItem Exact) (rate : option Q) : Q :=
  (flt_or0 (N := Exact) (amount item) * flt_or0 (N := Exact) rate / 100)%Q.

(** The fields of an item the loop reads are not negative. *)
Definition nonneg_item (item : @LineItem Exact) : Prop :=
  (0 <= flt_or0 (N := Exact) (amount item))%Q /\
  (0 <= flt_or0 (N := Exact) (cgst_rate item))%Q /\
  (0 <= flt_or0 (N := Exact) (sgst_rate item))%Q /\
  (0 <= flt_or0 (N := Exact) (igst_rate item))%Q.

Section MoreSamples.
Context {N : PyNum}.
Local Open Scope Z_scope.
Local Open Scope py_scope.
Local Open Scope string_scope.

(** Interstate: one item of 1000 at 18%, one IGST row. *)
Definition interstate_invoice : SalesInvoice :=
  new_invoice [new_item "ITEM-A" 1000 None None (Some 18)]
              [new_tax "Output Tax IGST - K" 180 1180]
              (py_float 1000) (py_float 1000).

(** The intrastate invoice as a return (credit note). *)
Definition return_invoice : SalesInvoice :=
  {| items := items intrastate_invoice; taxes := taxes intrastate_invoice;
     is_return := true; docstatus := 0;
     net_total := net_total intrastate_invoice;
     base_total := base_total intrastate_invoice;
     total_taxes_and_charges := py_float 180;
     base_total_taxes_and_charges := py_float 180;
     grand_total := py_float 1180; base_grand_total := py_float 1180;
     rounding_adjustment := py_float 0; rounded_total := py_float 1180;
     base_rounded_total := py_float 1180;
     outstanding_amount := py_float 1180 |}.


(** One item of 10 taxed 1%, 2% and 3% (0.1, 0.2 and 0.3), with the
    rows in the order IGST, SGST, CGST. *)
Definition three_types_invoice : SalesInvoice :=
  new_invoice [new_item "ITEM-A" 10 (Some 1) (Some 2) (Some 3)]
              [new_tax "Output Tax IGST - K" 0 10;
               new_tax "Output Tax SGST - K" 0 10;
               new_tax "Output Tax CGST - K" 0 10]
              (py_float 10) (py_float 10).

End MoreSamples.

(** The integer [round_half] divides back:
    [int(x * 10 ** n + 0.5)]. *)
Definition scaled_int (x : Q) (n : nat) : Z :=
  Q_int (x * inject_Z (10 ^ Z.of_nat n) + (1 # 2))%Q.

(** * Properties *)

(** ** The loop over the items, one local at a time *)

Section LoopFacts.
Context {N : PyNum}.
Local Open Scope py_scope.

Lemma items_loop_cons (st : Totals) (item : LineItem) (l : list LineItem) :
  items_loop st (item :: l) =
  (fst (items_loop (fst (item_body st item)) l),
   annotate item :: snd (items_loop (fst (item_body st item)) l)).
Proof.
  simpl. destruct (items_loop _ l) as [st2 l2]. reflexivity.
Qed.

Lemma items_loop_items (l : list LineItem) :
  forall st, snd (items_loop st l) = map annotate l.
Proof.
  induction l as [|item l IH]; intros st; [reflexivity|].
  rewrite items_loop_cons. simpl. now rewrite IH.
Qed.

Ltac by_loop_induction l IH :=
  induction l as [|item l IH]; intros st;
  [reflexivity | rewrite items_loop_cons; simpl; now rewrite IH].

Lemma loop_total_cgst (l : list LineItem) :
  forall st, total_cgst (fst (items_loop st l))
             = sum_from cgst_rate (total_cgst st) l.
Proof. by_loop_induction l IH. Qed.

Lemma loop_total_sgst (l : list LineItem) :
  forall st, total_sgst (fst (items_loop st l))
             = sum_from sgst_rate (total_sgst st) l.
Proof. by_loop_induction l IH. Qed.

Lemma loop_total_igst (l : list LineItem) :
  forall st, total_igst (fst (items_loop st l))
             = sum_from igst_rate (total_igst st) l.
Proof. by_loop_induction l IH. Qed.

Lemma loop_cgst_item_wise (l : list LineItem) :
  forall st, cgst_item_wise (fst (items_loop st l))
             = breakup_from cgst_rate (cgst_item_wise st) l.
Proof. by_loop_induction l IH. Qed.

Lemma loop_sgst_item_wise (l : list LineItem) :
  forall st, sgst_item_wise (fst (items_loop st l))
             = breakup_from sgst_rate (sgst_item_wise st) l.
Proof. by_loop_induction l IH. Qed.

Lemma loop_igst_item_wise (l : list LineItem) :
  forall st, igst_item_wise (fst (items_loop st l))
             = breakup_from igst_rate (igst_item_wise st) l.
Proof. by_loop_induction l IH. Qed.

(** A total is the running sum of the amounts the loop stored. *)
Lemma sum_from_py_sum (rate : LineItem -> option num) (l : list LineItem) :
  forall t0, sum_from rate t0 l
             = fold_left py_add (map (fun item => item_tax item (rate item)) l) t0.
Proof.
  induction l as [|item l IH]; intros t0; [reflexivity|].
  simpl. apply IH.
Qed.

Lemma stored_cgst (l : list LineItem) :
  map cgst_amount (map annotate l)
  = map (fun item => item_tax item (cgst_rate item)) l.
Proof. rewrite map_map. reflexivity. Qed.

Lemma stored_sgst (l : list LineItem) :
  map sgst_amount (map annotate l)
  = map (fun item => item_tax item (sgst_rate item)) l.
Proof. rewrite map_map. reflexivity. Qed.

Lemma stored_igst (l : list LineItem) :
  map igst_amount (map annotate l)
  = map (fun item => item_tax item (igst_rate item)) l.
Proof. rewrite map_map. reflexivity. Qed.

(** The method, with the loop's results named. *)
Lemma apply_items (self : SalesInvoice) :
  items (apply_tally_tax_calculation self) = map annotate (items self).
Proof.
  unfold apply_tally_tax_calculation.
  rewrite <- (items_loop_items (items self) totals_init).
  destruct (items_loop totals_init (items self)); reflexivity.
Qed.

Lemma apply_taxes (self : SalesInvoice) :
  taxes (apply_tally_tax_calculation self)
  = running_totals (flt_or0 (base_total self)) (totals_of (items self))
      (map (tax_body (totals_of (items self))) (taxes self)).
Proof.
  unfold apply_tally_tax_calculation, totals_of.
  destruct (items_loop totals_init (items self)); reflexivity.
Qed.

Lemma apply_total_taxes (self : SalesInvoice) :
  total_taxes_and_charges (apply_tally_tax_calculation self)
  = total_cgst (totals_of (items self)) + total_sgst (totals_of (items self))
    + total_igst (totals_of (items self)).
Proof.
  unfold apply_tally_tax_calculation, totals_of.
  destruct (items_loop totals_init (items self)); reflexivity.
Qed.

Lemma totals_of_cgst (l : list LineItem) :
  total_cgst (totals_of l) = py_sum (map cgst_amount (map annotate l)).
Proof.
  unfold totals_of, py_sum.
  now rewrite loop_total_cgst, sum_from_py_sum, stored_cgst.
Qed.

Lemma totals_of_sgst (l : list LineItem) :
  total_sgst (totals_of l) = py_sum (map sgst_amount (map annotate l)).
Proof.
  unfold totals_of, py_sum.
  now rewrite loop_total_sgst, sum_from_py_sum, stored_sgst.
Qed.

Lemma totals_of_igst (l : list LineItem) :
  total_igst (totals_of l) = py_sum (map igst_amount (map annotate l)).
Proof.
  unfold totals_of, py_sum.
  now rewrite loop_total_igst, sum_from_py_sum, stored_igst.
Qed.

(** The code's two rounding helpers are the specification's. *)
Lemma round_half_is_Half_Up_N (x : num) (n : nat) :
  round_half x n = Half_Up_N x n.
Proof. reflexivity. Qed.

Lemma round_half_up_is_Half_Up_Integer (x : num) :
  round_half_up x = Half_Up_Integer x.
Proof. reflexivity. Qed.

(** C1.  After the engine runs, every line item carries, for each of
    the three tax types, Half-Up-N(amount * rate / 100, 2) of its own
    amount and rate (a missing amount or rate counting as 0), where
    Half-Up-N scales by 10^2, adds 0.5, truncates and divides back. *)
Theorem item_amounts_are_half_up (self : SalesInvoice) :
  let after := apply_tally_tax_calculation self in
  let tax_at (rate : LineItem -> option num) (item : LineItem) :=
    Half_Up_N (flt_or0 (amount item) * flt_or0 (rate item) / py_float 100) 2 in
  map cgst_amount (items after) = map (tax_at cgst_rate) (items self) /\
  map sgst_amount (items after) = map (tax_at sgst_rate) (items self) /\
  map igst_amount (items after) = map (tax_at igst_rate) (items self).
Proof.
  cbv zeta. rewrite apply_items, stored_cgst, stored_sgst, stored_igst.
  repeat split; apply map_ext; intros item;
    unfold item_tax; apply round_half_is_Half_Up_N.
Qed.

End LoopFacts.

(** ** Document totals and running totals *)

Section DocumentFacts.
Context {N : PyNum}.
Local Open Scope py_scope.

(** Opens the method's body with the loop's result named [st]. *)
Ltac open_method self st :=
  unfold apply_tally_tax_calculation;
  pose proof (totals_of_cgst (items self)) as Hc;
  pose proof (totals_of_sgst (items self)) as Hs;
  pose proof (totals_of_igst (items self)) as Hi;
  pose proof (items_loop_items (items self) totals_init) as Hl;
  unfold totals_of in Hc, Hs, Hi;
  destruct (items_loop totals_init (items self)) as [st l1];
  simpl in Hc, Hs, Hi, Hl; simpl.

(** C3.  After the engine runs, total_taxes_and_charges and its base
    mirror are total_cgst + total_sgst + total_igst, each total being
    the running sum of the items' stored, already rounded amounts;
    grand_total is net_total plus that sum and base_grand_total is
    base_total plus that sum. *)
Theorem document_totals_are_sums_of_rounded (self : SalesInvoice) :
  let after := apply_tally_tax_calculation self in
  let sum_cgst := py_sum (map cgst_amount (items after)) in
  let sum_sgst := py_sum (map sgst_amount (items after)) in
  let sum_igst := py_sum (map igst_amount (items after)) in
  let total_tax := sum_cgst + sum_sgst + sum_igst in
  total_taxes_and_charges after = total_tax /\
  base_total_taxes_and_charges after = total_tax /\
  grand_total after = flt_or0 (net_total after) + total_tax /\
  base_grand_total after = flt_or0 (base_total after) + total_tax.
Proof.
  cbv zeta. rewrite apply_items.
  open_method self st. rewrite <- Hc, <- Hs, <- Hi.
  repeat split; reflexivity.
Qed.

(** C7.  After the engine runs, rounded_total is Half-Up-Integer of
    grand_total (truncate(x) + 1 when x - truncate(x) >= 0.5, else
    truncate(x)), and outstanding_amount is base_rounded_total. *)
Theorem rounded_total_and_outstanding (self : SalesInvoice) :
  let after := apply_tally_tax_calculation self in
  rounded_total after = py_float (Half_Up_Integer (grand_total after)) /\
  outstanding_amount after = base_rounded_total after.
Proof.
  cbv zeta. open_method self st.
  rewrite round_half_up_is_Half_Up_Integer. split; reflexivity.
Qed.

Lemma base_rounded_total_inlined (self : SalesInvoice) :
  let after := apply_tally_tax_calculation self in
  base_rounded_total after = py_float (floor_half_up (base_grand_total after)) /\
  rounding_adjustment after
  = py_float (floor_half_up (base_grand_total after)) - base_grand_total after.
Proof.
  cbv zeta. unfold apply_tally_tax_calculation.
  destruct (items_loop totals_init (items self)) as [st l1].
  split; reflexivity.
Qed.

Lemma tax_body_row_total (st : Totals) (tax : TaxRow) :
  row_total (tax_body st tax) = row_total tax.
Proof.
  unfold tax_body.
  destruct (str_in "cgst" _); [reflexivity|].
  destruct (str_in "sgst" _ || str_in "utgst" _); [reflexivity|].
  destruct (str_in "igst" _); reflexivity.
Qed.

Lemma tax_body_row_base_total (st : Totals) (tax : TaxRow) :
  row_base_total (tax_body st tax) = row_base_total tax.
Proof.
  unfold tax_body.
  destruct (str_in "cgst" _); [reflexivity|].
  destruct (str_in "sgst" _ || str_in "utgst" _); [reflexivity|].
  destruct (str_in "igst" _); reflexivity.
Qed.

(** C2.  The running totals go by the number of tax rows alone: one
    row gets base_total + total_igst, two rows get base_total +
    total_cgst and base_total + total_cgst + total_sgst in their
    order, whatever the rows are; with any other number of rows no
    row's total or base_total changes. *)
Theorem running_totals_by_row_count (self : SalesInvoice) :
  let after := apply_tally_tax_calculation self in
  let doc_base_total := flt_or0 (base_total self) in
  let sum_cgst := py_sum (map cgst_amount (items after)) in
  let sum_sgst := py_sum (map sgst_amount (items after)) in
  let sum_igst := py_sum (map igst_amount (items after)) in
  match taxes self with
  | [_] =>
      map row_total (taxes after) = [doc_base_total + sum_igst]
  | [_; _] =>
      map row_total (taxes after)
      = [doc_base_total + sum_cgst; doc_base_total + sum_cgst + sum_sgst]
  | _ =>
      map row_total (taxes after) = map row_total (taxes self) /\
      map row_base_total (taxes after) = map row_base_total (taxes self)
  end.
Proof.
  cbv zeta. rewrite apply_items, apply_taxes.
  rewrite <- totals_of_cgst, <- totals_of_sgst, <- totals_of_igst.
  set (st := totals_of (items self)).
  assert (Ht : forall l, map row_total (map (tax_body st) l) = map row_total l).
  { intros l. rewrite map_map. apply map_ext. apply tax_body_row_total. }
  assert (Hb : forall l,
             map row_base_total (map (tax_body st) l) = map row_base_total l).
  { intros l. rewrite map_map. apply map_ext. apply tax_body_row_base_total. }
  destruct (taxes self) as [|tax1 [|tax2 [|tax3 l]]].
  - split; reflexivity.
  - reflexivity.
  - reflexivity.
  - change (running_totals ?b st (map (tax_body st) (tax1 :: tax2 :: tax3 :: l)))
      with (map (tax_body st) (tax1 :: tax2 :: tax3 :: l)).
    split; [apply Ht | apply Hb].
Qed.

(** C10.  Whenever the engine assigns running totals (exactly one or
    exactly two tax rows), every row ends with base_total equal to
    total. *)
Theorem running_base_total_mirrors_total (self : SalesInvoice) :
  List.length (taxes self) = 1%nat \/ List.length (taxes self) = 2%nat ->
  Forall (fun tax => row_base_total tax = row_total tax)
         (taxes (apply_tally_tax_calculation self)).
Proof.
  intros Hn. rewrite apply_taxes.
  destruct (taxes self) as [|tax1 [|tax2 [|tax3 l]]]; simpl in Hn;
    try (destruct Hn; discriminate).
  - simpl. repeat constructor.
  - simpl. repeat constructor.
Qed.

End DocumentFacts.

(** ** Running the engine on its own output *)

Section Idempotence.
Context {N : PyNum}.
Local Open Scope py_scope.

(** The loop reads only the inputs of an item, which it keeps. *)
Lemma item_body_annotate (st : Totals) (item : LineItem) :
  item_body st (annotate item) = (fst (item_body st item), annotate item).
Proof. reflexivity. Qed.

Lemma items_loop_annotate (l : list LineItem) :
  forall st, items_loop st (map annotate l) = items_loop st l.
Proof.
  induction l as [|item l IH]; intros st; [reflexivity|].
  cbn [map]. rewrite !items_loop_cons, item_body_annotate.
  cbn [fst]. now rewrite IH.
Qed.

Lemma classifier_set_tax (tax : TaxRow) (v : num) (d : breakup) :
  classifier (set_tax tax v d) = classifier tax.
Proof. reflexivity. Qed.

Lemma classifier_set_running (tax : TaxRow) (v : num) :
  classifier (set_running tax v) = classifier tax.
Proof. reflexivity. Qed.

Lemma tax_body_set_running (st : Totals) (tax : TaxRow) (v : num) :
  tax_body st (set_running tax v) = set_running (tax_body st tax) v.
Proof.
  unfold tax_body. rewrite classifier_set_running.
  destruct (str_in "cgst" _); [reflexivity|].
  destruct (str_in "sgst" _ || str_in "utgst" _); [reflexivity|].
  destruct (str_in "igst" _); reflexivity.
Qed.

Lemma classifier_tax_body (st : Totals) (tax : TaxRow) :
  classifier (tax_body st tax) = classifier tax.
Proof.
  unfold tax_body.
  destruct (str_in "cgst" _); [reflexivity|].
  destruct (str_in "sgst" _ || str_in "utgst" _); [reflexivity|].
  destruct (str_in "igst" _); reflexivity.
Qed.

Lemma tax_body_twice (st : Totals) (tax : TaxRow) :
  tax_body st (tax_body st tax) = tax_body st tax.
Proof.
  unfold tax_body at 1. rewrite classifier_tax_body. unfold tax_body.
  destruct (str_in "cgst" _); [reflexivity|].
  destruct (str_in "sgst" _ || str_in "utgst" _); [reflexivity|].
  destruct (str_in "igst" _); reflexivity.
Qed.

Lemma set_running_twice (tax : TaxRow) (v w : num) :
  set_running (set_running tax v) w = set_running tax w.
Proof. reflexivity. Qed.

(** Steps 3 and 4 together, run on their own result. *)
Lemma tax_rows_twice (b : num) (st : Totals) (l : list TaxRow) :
  running_totals b st
    (map (tax_body st) (running_totals b st (map (tax_body st) l)))
  = running_totals b st (map (tax_body st) l).
Proof.
  destruct l as [|tax1 [|tax2 [|tax3 l]]].
  - reflexivity.
  - simpl. now rewrite tax_body_set_running, tax_body_twice.
  - simpl. now rewrite !tax_body_set_running, !tax_body_twice.
  - change (running_totals b st (map (tax_body st) (tax1 :: tax2 :: tax3 :: l)))
      with (map (tax_body st) (tax1 :: tax2 :: tax3 :: l)).
    rewrite map_map.
    rewrite (map_ext _ (tax_body st) (tax_body_twice st)).
    reflexivity.
Qed.

(** C9.  The engine is idempotent: run on the snapshot it produced
    (whose inputs - amounts, rates, net_total, base_total, row
    classifiers - it has left as they were), it returns that snapshot
    unchanged. *)
Theorem engine_idempotent (self : SalesInvoice) :
  apply_tally_tax_calculation (apply_tally_tax_calculation self)
  = apply_tally_tax_calculation self.
Proof.
  pose proof (apply_items self) as Hitems.
  pose proof (apply_taxes self) as Htaxes.
  assert (Hnet : net_total (apply_tally_tax_calculation self) = net_total self).
  { unfold apply_tally_tax_calculation.
    destruct (items_loop totals_init (items self)); reflexivity. }
  assert (Hbase : base_total (apply_tally_tax_calculation self)
                  = base_total self).
  { unfold apply_tally_tax_calculation.
    destruct (items_loop totals_init (items self)); reflexivity. }
  assert (Hret : is_return (apply_tally_tax_calculation self)
                 = is_return self).
  { unfold apply_tally_tax_calculation.
    destruct (items_loop totals_init (items self)); reflexivity. }
  assert (Hdoc : docstatus (apply_tally_tax_calculation self)
                 = docstatus self).
  { unfold apply_tally_tax_calculation.
    destruct (items_loop totals_init (items self)); reflexivity. }
  remember (apply_tally_tax_calculation self) as once eqn:Honce.
  unfold apply_tally_tax_calculation at 1.
  rewrite Hitems, Htaxes, Hnet, Hbase, Hret, Hdoc, items_loop_annotate.
  pose proof (items_loop_items (items self) totals_init) as Hl.
  subst once. unfold apply_tally_tax_calculation, totals_of.
  destruct (items_loop totals_init (items self)) as [st l1].
  cbn [fst snd] in *. subst l1.
  now rewrite tax_rows_twice.
Qed.

End Idempotence.

(** ** Rows the classifier does not recognise *)

Section Frame.
Context {N : PyNum}.
Local Open Scope py_scope.

Lemma tax_body_unrecognised (st : Totals) (tax : TaxRow) :
  str_in "cgst" (classifier tax) = false ->
  str_in "sgst" (classifier tax) = false ->
  str_in "utgst" (classifier tax) = false ->
  str_in "igst" (classifier tax) = false ->
  tax_body st tax = tax.
Proof.
  intros Hc Hs Hu Hi. unfold tax_body. now rewrite Hc, Hs, Hu, Hi.
Qed.

Lemma running_totals_nth (b : num) (st : Totals) (l : list TaxRow)
      (i : nat) (tax : TaxRow) :
  nth_error l i = Some tax ->
  exists v, nth_error (running_totals b st l) i
            = Some (if ((List.length l =? 1) || (List.length l =? 2))%nat
                    then set_running tax v else tax).
Proof.
  intros H. exists (match i, l with
                    | O, [_] => b + total_igst st
                    | O, _ => b + total_cgst st
                    | _, _ => b + total_cgst st + total_sgst st
                    end).
  destruct l as [|tax1 [|tax2 [|tax3 l]]].
  - destruct i; discriminate.
  - destruct i as [|[|i]]; simpl in *; try discriminate.
    now injection H as ->.
  - destruct i as [|[|[|i]]]; simpl in *; try discriminate;
      now injection H as ->.
  - exact H.
Qed.

(** C5, amended.  A tax row whose classifier contains none of "cgst",
    "sgst", "utgst", "igst" keeps its four amount fields and its
    item-wise detail; its total and base_total are also kept when the
    invoice has neither exactly one nor exactly two tax rows, and the
    row is then returned as it was. *)
Theorem unrecognised_row_kept (self : SalesInvoice) (i : nat) (tax : TaxRow) :
  nth_error (taxes self) i = Some tax ->
  str_in "cgst" (classifier tax) = false ->
  str_in "sgst" (classifier tax) = false ->
  str_in "utgst" (classifier tax) = false ->
  str_in "igst" (classifier tax) = false ->
  exists tax',
    nth_error (taxes (apply_tally_tax_calculation self)) i = Some tax' /\
    tax_amount tax' = tax_amount tax /\
    base_tax_amount tax' = base_tax_amount tax /\
    tax_amount_after_discount_amount tax'
    = tax_amount_after_discount_amount tax /\
    base_tax_amount_after_discount_amount tax'
    = base_tax_amount_after_discount_amount tax /\
    item_wise_tax_detail tax' = item_wise_tax_detail tax /\
    (List.length (taxes self) <> 1%nat ->
     List.length (taxes self) <> 2%nat -> tax' = tax).
Proof.
  intros Hnth Hc Hs Hu Hi. rewrite apply_taxes.
  set (st := totals_of (items self)).
  assert (Hmap : nth_error (map (tax_body st) (taxes self)) i = Some tax).
  { rewrite nth_error_map, Hnth. simpl.
    now rewrite tax_body_unrecognised. }
  destruct (running_totals_nth (flt_or0 (base_total self)) st _ _ Hmap)
    as [v Hv].
  rewrite length_map in Hv.
  eexists. split; [exact Hv|].
  destruct (Nat.eqb_spec (List.length (taxes self)) 1) as [H1|H1];
    destruct (Nat.eqb_spec (List.length (taxes self)) 2) as [H2|H2];
    simpl; repeat split; try reflexivity; intros; congruence.
Qed.

End Frame.

(** ** Breakup mappings *)

Section DictFacts.
Variable V : Type.

Lemma dict_get_set_same (k : string) (v : V) (d : dict V) :
  dict_get k (dict_set k v d) = Some v.
Proof.
  induction d as [|[k' v'] d IH]; simpl.
  - now rewrite String.eqb_refl.
  - destruct (String.eqb k k') eqn:E; simpl.
    + now rewrite String.eqb_refl.
    + now rewrite E.
Qed.

Lemma dict_get_set_other (k k0 : string) (v : V) (d : dict V) :
  k <> k0 -> dict_get k (dict_set k0 v d) = dict_get k d.
Proof.
  intros Hne. induction d as [|[k' v'] d IH]; simpl.
  - destruct (String.eqb_spec k k0); [contradiction | reflexivity].
  - destruct (String.eqb_spec k0 k') as [->|Hk]; simpl.
    + destruct (String.eqb_spec k k'); [contradiction | reflexivity].
    + destruct (String.eqb_spec k k'); [reflexivity | exact IH].
Qed.
End DictFacts.

Section BreakupFacts.
Context {N : PyNum}.
Local Open Scope py_scope.

Variable rate : LineItem -> option num.

Lemma breakup_from_app (d : breakup) (l1 l2 : list LineItem) :
  breakup_from rate d (l1 ++ l2)
  = breakup_from rate (breakup_from rate d l1) l2.
Proof. apply fold_left_app. Qed.

Lemma breakup_from_cons (d : breakup) (item : LineItem) (l : list LineItem) :
  breakup_from rate d (item :: l)
  = breakup_from rate
      (record_entry item (flt_or0 (rate item)) (item_tax item (rate item)) d)
      l.
Proof. reflexivity. Qed.

(** An item whose rate is not above zero leaves the mapping alone. *)
Lemma breakup_from_skip (d : breakup) (pre post : list LineItem)
      (item : LineItem) :
  (flt_or0 (rate item) >? py_float 0) = false ->
  breakup_from rate d (pre ++ item :: post)
  = breakup_from rate d (pre ++ post).
Proof.
  intros H. rewrite !breakup_from_app, breakup_from_cons.
  unfold record_entry. now rewrite H.
Qed.

(** An entry stays until an item with the same code and a rate above
    zero comes. *)
Lemma breakup_from_keeps (code : string) (v : num * num)
      (post : list LineItem) :
  (forall later, In later post -> item_code later = code ->
                 (flt_or0 (rate later) >? py_float 0) = false) ->
  forall d, dict_get code d = Some v ->
            dict_get code (breakup_from rate d post) = Some v.
Proof.
  induction post as [|item post IH]; intros Hpost d Hd; [exact Hd|].
  rewrite breakup_from_cons. apply IH.
  - intros later Hin. apply Hpost. now right.
  - unfold record_entry.
    destruct (flt_or0 (rate item) >? py_float 0) eqn:Hr; [|exact Hd].
    rewrite dict_get_set_other; [exact Hd|].
    intros ->. rewrite (Hpost item) in Hr; [discriminate | now left | reflexivity].
Qed.

Lemma breakup_from_rates (l : list LineItem) :
  forall d, rates_above_zero d -> rates_above_zero (breakup_from rate d l).
Proof.
  induction l as [|item l IH]; intros d Hd; [exact Hd|].
  rewrite breakup_from_cons. apply IH. unfold record_entry.
  destruct (flt_or0 (rate item) >? py_float 0) eqn:Hr; [|exact Hd].
  intros code r a. destruct (String.eqb_spec code (item_code item)) as [->|Hne].
  - rewrite dict_get_set_same. now intros [= <- <-].
  - rewrite dict_get_set_other by exact Hne. apply Hd.
Qed.

(** The entry of an item: present, with the item's own rate and
    amount, exactly when its rate is above zero, as long as no later
    item of the same code has a rate above zero. *)
Lemma breakup_from_entry (pre post : list LineItem) (item : LineItem) :
  (forall later, In later post -> item_code later = item_code item ->
                 (flt_or0 (rate later) >? py_float 0) = false) ->
  dict_get (item_code item) (breakup_from rate [] (pre ++ item :: post))
  = Some (flt_or0 (rate item), item_tax item (rate item))
  <-> (flt_or0 (rate item) >? py_float 0) = true.
Proof.
  intros Hpost. split.
  - apply breakup_from_rates. intros code r a; discriminate.
  - intros Hr. rewrite breakup_from_app, breakup_from_cons.
    apply breakup_from_keeps; [exact Hpost|].
    unfold record_entry. rewrite Hr. apply dict_get_set_same.
Qed.

End BreakupFacts.

(** ** Arithmetic facts, on exact rationals *)

Section ExactFacts.
Local Open Scope Q_scope.

Local Abbreviation invoice := (@SalesInvoice Exact).
Local Abbreviation line := (@LineItem Exact).
Local Abbreviation row := (@TaxRow Exact).

Lemma Q_int_nonneg (x : Q) : 0 <= x -> Q_int x = Qfloor x.
Proof.
  destruct x as [n d]. unfold Qle, Q_int, Qfloor. simpl. intros H.
  apply Z.quot_div_nonneg; lia.
Qed.

Lemma Q_int_small (x : Q) : 0 <= x -> x < 1 -> Q_int x = 0%Z.
Proof.
  destruct x as [n d]. unfold Qle, Qlt, Q_int. simpl. intros H0 H1.
  apply Z.quot_small. lia.
Qed.

Lemma exact_flt_or0_zero (v : option Q) :
  v = None \/ (exists r, v = Some r /\ r == 0) ->
  flt_or0 (N := Exact) v = 0.
Proof.
  intros [->|[r [-> Hr]]]; [reflexivity|].
  unfold flt_or0, py_truth.
  change (@py_eq Exact r (@py_float Exact 0)) with (Qeq_bool r 0).
  apply Qeq_bool_iff in Hr. now rewrite Hr.
Qed.

(** The tax of an item at a rate of zero is zero. *)
Lemma exact_item_tax_zero (item : line) (v : option Q) :
  flt_or0 (N := Exact) v = 0 -> item_tax item v == 0.
Proof.
  intros Hv. unfold item_tax, round_half. rewrite Hv. simpl.
  match goal with |- inject_Z (Q_int ?a) / _ == _ => set (arg := a) end.
  assert (E : arg == 1 # 2) by (unfold arg, Qdiv; ring).
  rewrite Q_int_small; [reflexivity | lra | lra].
Qed.

Lemma item_wise_of_totals (k : gst) (l : list line) :
  item_wise_of k (totals_of l) = breakup_from (rate_of k) [] l.
Proof.
  unfold totals_of. destruct k; simpl.
  - apply loop_cgst_item_wise.
  - apply loop_sgst_item_wise.
  - apply loop_igst_item_wise.
Qed.

Lemma amount_of_annotate (k : gst) (item : line) :
  amount_of k (annotate item) = item_tax item (rate_of k item).
Proof. destruct k; reflexivity. Qed.

(** C8, amended.  For every line item and every tax type: provided no
    later line item with the same identifier has a rate above zero
    for that type, the type's breakup mapping holds
    {identifier: [rate, amount]} of the item if and only if the
    item's rate is strictly greater than zero.  An item whose rate is
    not above zero adds nothing to the mapping (the mapping is the
    one of the invoice without that line), and when its rate is zero
    or absent its amount field is still computed, and stored as 0. *)
Theorem breakup_entry_iff_rate_above_zero
        (k : gst) (pre post : list line) (item : line) :
  let l := pre ++ item :: post in
  let st := totals_of l in
  let rate := flt_or0 (rate_of k item) in
  exists stored : line,
    nth_error (snd (items_loop totals_init l)) (List.length pre)
    = Some stored /\
    ((forall later : line,
         In later post -> item_code later = item_code item ->
         py_gt (flt_or0 (rate_of k later)) (py_float 0) = false) ->
     (dict_get (item_code item) (item_wise_of k st)
      = Some (rate, amount_of k stored)
      <-> py_gt rate (py_float 0) = true)) /\
    (py_gt rate (py_float 0) = false ->
     item_wise_of k st = item_wise_of k (totals_of (pre ++ post))) /\
    (rate_of k item = None \/ (exists r, rate_of k item = Some r /\ r == 0) ->
     amount_of k stored == 0).
Proof.
  cbv zeta. exists (annotate item). split; [|split; [|split]].
  - rewrite items_loop_items, nth_error_map, nth_error_app2 by lia.
    now rewrite Nat.sub_diag.
  - intros Hpost. rewrite item_wise_of_totals, amount_of_annotate.
    now apply breakup_from_entry.
  - intros Hr. rewrite !item_wise_of_totals. now apply breakup_from_skip.
  - intros Hz. rewrite amount_of_annotate.
    apply exact_item_tax_zero. now apply exact_flt_or0_zero.
Qed.

Lemma floor_half_up_bounds (x : Q) :
  - (1 # 2) < inject_Z (floor_half_up (N := Exact) x) - x /\
  inject_Z (floor_half_up (N := Exact) x) - x <= 1 # 2.
Proof.
  unfold floor_half_up.
  change (@py_floor Exact x) with (Qfloor x).
  change (@py_ge Exact ?a ?b) with (Qle_bool b a).
  change (@py_sub Exact ?a ?b) with (a - b).
  change (@py_float Exact ?z) with (inject_Z z).
  change (@py_half Exact) with (1 # 2).
  pose proof (Qfloor_le x) as Hlo.
  pose proof (Qlt_floor x) as Hhi. rewrite inject_Z_plus in Hhi.
  change (inject_Z 1) with 1 in Hhi.
  destruct (Qle_bool (1 # 2) (x - inject_Z (Qfloor x))) eqn:E.
  - apply Qle_bool_iff in E. rewrite inject_Z_plus.
    change (inject_Z 1) with 1. split; lra.
  - assert (E' : ~ (1 # 2 <= x - inject_Z (Qfloor x))).
    { intros H. apply Qle_bool_iff in H. congruence. }
    split; lra.
Qed.

Lemma floor_half_up_nonneg (x : Q) :
  0 <= x -> floor_half_up (N := Exact) x = Half_Up_Integer (N := Exact) x.
Proof.
  intros Hx. unfold floor_half_up, Half_Up_Integer.
  change (@py_floor Exact x) with (Qfloor x).
  change (@py_int Exact x) with (Q_int x).
  now rewrite (Q_int_nonneg Hx).
Qed.


End ExactFacts.

(** ** The sample invoices, evaluated *)

(** Two binary64 values differ when [==] on them computes to false. *)
Ltac floats_differ :=
  let H := fresh "H" in
  intro H;
  match type of H with
  | ?a = ?b => apply (f_equal (PrimFloat.eqb b)) in H
  end;
  vm_compute in H; discriminate H.

Section Evaluated.
Local Open Scope string_scope.

Local Abbreviation run64 := (apply_tally_tax_calculation (N := Binary64)).
Local Abbreviation runQ := (apply_tally_tax_calculation (N := Exact)).

(** The worked values of the specification, in binary64. *)
Example round_half_10_125 :
  round_half (N := Binary64) 10.125%float 2 = (1013 / 100)%float.
Proof. vm_compute. reflexivity. Qed.

Example round_half_10_124 :
  round_half (N := Binary64) (10124 / 1000)%float 2 = (1012 / 100)%float.
Proof. vm_compute. reflexivity. Qed.

Example round_half_up_boundary :
  round_half_up (N := Binary64) 10.5%float = 11%Z /\
  round_half_up (N := Binary64) (104 / 10)%float = 10%Z /\
  round_half_up (N := Binary64) (106 / 10)%float = 11%Z.
Proof. vm_compute. repeat split. Qed.

Example intrastate_running_totals :
  map row_total (taxes (run64 intrastate_invoice)) = [1090%float; 1180%float]
  /\ map tax_amount (taxes (run64 intrastate_invoice)) = [90%float; 90%float].
Proof. vm_compute. split; reflexivity. Qed.

(** Witness of C10: the two rows of the intrastate invoice. *)
Lemma running_base_total_mirrors_total_witness :
  (List.length (taxes (intrastate_invoice (N := Binary64))) = 1%nat
   \/ List.length (taxes (intrastate_invoice (N := Binary64))) = 2%nat) /\
  Forall (fun tax => row_base_total tax = row_total tax)
         (taxes (run64 intrastate_invoice)).
Proof.
  split; [right; reflexivity|].
  apply (running_base_total_mirrors_total intrastate_invoice).
  right; reflexivity.
Defined.

(** C5 as stated fails: a freight charge as the only tax row matches
    none of the four substrings, and its running total is rewritten
    from 1050 to base_total + total_igst = 1000. *)
Lemma unrecognised_row_total_rewritten :
  let none_of_four (t : string) :=
    str_in "cgst" t = false /\ str_in "sgst" t = false /\
    str_in "utgst" t = false /\ str_in "igst" t = false in
  (Forall (fun tax => none_of_four (classifier tax))
          (taxes (freight_only_invoice (N := Binary64))) /\
   map row_total (taxes (freight_only_invoice (N := Binary64)))
   = [1050%float] /\
   map row_total (taxes (run64 freight_only_invoice)) = [1000%float] /\
   nth 0 (map row_total (taxes (run64 freight_only_invoice))) (py_float 0)
   <> nth 0 (map row_total (taxes freight_only_invoice)) (py_float 0)) /\
  (Forall (fun tax => none_of_four (classifier tax))
          (taxes (freight_only_invoice (N := Exact))) /\
   ~ (nth 0 (map row_total (taxes (runQ freight_only_invoice))) (py_float 0)
      == nth 0 (map row_total (taxes freight_only_invoice)) (py_float 0))%Q).
Proof.
  cbv zeta. split; [split; [|split; [|split]] | split].
  - repeat constructor.
  - vm_compute. reflexivity.
  - vm_compute. reflexivity.
  - floats_differ.
  - repeat constructor.
  - vm_compute. discriminate.
Qed.

(** Witness of C5, amended: the freight row of the three-row invoice. *)
Lemma unrecognised_row_kept_witness :
  exists tax' : @TaxRow Binary64,
    nth_error (taxes (run64 freight_invoice)) 2 = Some tax' /\
    tax_amount tax' = 50%float /\
    item_wise_tax_detail tax' = host_text "{}" /\
    row_total tax' = 1230%float.
Proof.
  destruct (@unrecognised_row_kept Binary64 freight_invoice 2
              (new_tax "Freight and Forwarding Charges - K" 50 1230)
              eq_refl eq_refl eq_refl eq_refl eq_refl)
    as [tax' [Hnth [Ha [_ [_ [_ [Hd Hsame]]]]]]].
  exists tax'. split; [exact Hnth|].
  split; [rewrite Ha; vm_compute; reflexivity|].
  split; [rewrite Hd; reflexivity|].
  rewrite Hsame; [vm_compute; reflexivity | discriminate | discriminate].
Defined.

(** C4 as stated fails: with a freight charge of 50 next to CGST and
    SGST of 90 each, the rows' amounts sum to 230 and
    total_taxes_and_charges is 180. *)
Lemma tax_rows_sum_differs :
  (py_sum (map tax_amount (taxes (run64 freight_invoice))) = 230%float /\
   total_taxes_and_charges (run64 freight_invoice) = 180%float /\
   py_sum (map tax_amount (taxes (run64 freight_invoice)))
   <> total_taxes_and_charges (run64 freight_invoice)) /\
  ~ (py_sum (map tax_amount (taxes (runQ freight_invoice)))
     == total_taxes_and_charges (runQ freight_invoice))%Q.
Proof.
  split; [split; [|split]|].
  - vm_compute. reflexivity.
  - vm_compute. reflexivity.
  - floats_differ.
  - vm_compute. discriminate.
Qed.

(** Below zero, where the specification leaves the rounding open, the
    two roundings part: at a base_grand_total of -2.75 the method sets
    base_rounded_total to -3 (with [floor]), and Half-Up-Integer(-2.75)
    is -2 (with [int]). *)
Lemma base_rounded_total_differs :
  (base_grand_total (run64 negative_invoice) = (-2.75)%float /\
   base_rounded_total (run64 negative_invoice) = (-3)%float /\
   Half_Up_Integer (base_grand_total (run64 negative_invoice)) = (-2)%Z /\
   base_rounded_total (run64 negative_invoice)
   <> py_float (Half_Up_Integer (base_grand_total (run64 negative_invoice))))
  /\
  ~ (base_rounded_total (runQ negative_invoice)
     == py_float (Half_Up_Integer (base_grand_total (runQ negative_invoice))))%Q.
Proof.
  split; [split; [|split; [|split]]|].
  - vm_compute. reflexivity.
  - vm_compute. reflexivity.
  - vm_compute. reflexivity.
  - floats_differ.
  - vm_compute. discriminate.
Qed.

(** C8 as stated fails: with the same item code on two lines, both
    at a CGST rate of 9, the first line (amount 100, tax 9) has a
    rate above zero and no entry of its own: the mapping holds
    [9, 18], the second line's. *)
Lemma first_line_entry_overwritten :
  let l : list (@LineItem Binary64) := items repeated_item_invoice in
  let first := new_item "ITEM-A" 100 (Some 9%Z) (Some 9%Z) None in
  nth_error l 0 = Some first /\
  py_gt (flt_or0 (cgst_rate first)) (py_float 0) = true /\
  map cgst_amount (snd (items_loop totals_init l)) = [9%float; 18%float] /\
  cgst_item_wise (totals_of l) = [("ITEM-A", (9%float, 18%float))] /\
  dict_get (item_code first) (cgst_item_wise (totals_of l))
  <> Some (flt_or0 (cgst_rate first), item_tax first (cgst_rate first)).
Proof.
  cbv zeta. split; [reflexivity|]. split; [reflexivity|].
  split; [vm_compute; reflexivity|]. split; [vm_compute; reflexivity|].
  intros H. apply (f_equal (fun o => match o with
                                     | Some (_, a) => PrimFloat.eqb a 9
                                     | None => false
                                     end)) in H.
  vm_compute in H. discriminate H.
Qed.

(** Witness of C8, amended: the second of the two lines. *)
Lemma breakup_entry_iff_rate_above_zero_witness :
  let first := new_item (N := Exact) "ITEM-A" 100 (Some 9%Z) (Some 9%Z) None in
  let second := new_item (N := Exact) "ITEM-A" 200 (Some 9%Z) (Some 9%Z) None in
  exists stored : @LineItem Exact,
    nth_error (snd (items_loop totals_init [first; second])) 1 = Some stored /\
    dict_get "ITEM-A" (cgst_item_wise (totals_of [first; second]))
    = Some (inject_Z 9, cgst_amount stored) /\
    (igst_amount stored == 0)%Q.
Proof.
  cbv zeta.
  destruct (breakup_entry_iff_rate_above_zero CGST
              [new_item "ITEM-A" 100 (Some 9%Z) (Some 9%Z) None] []
              (new_item "ITEM-A" 200 (Some 9%Z) (Some 9%Z) None))
    as [stored [Hnth [Hentry _]]].
  destruct (breakup_entry_iff_rate_above_zero IGST
              [new_item "ITEM-A" 100 (Some 9%Z) (Some 9%Z) None] []
              (new_item "ITEM-A" 200 (Some 9%Z) (Some 9%Z) None))
    as [stored' [Hnth' [_ [_ Hzero]]]].
  exists stored. split; [exact Hnth|]. split.
  - apply Hentry; [intros later []|reflexivity].
  - assert (E : stored' = stored).
    { simpl in Hnth, Hnth'. congruence. }
    subst stored'. apply Hzero. left; reflexivity.
Defined.

End Evaluated.


(** * Further properties of the engine *)

(** ** What the engine leaves alone, and what it reads *)

Section Inputs.
Context {N : PyNum}.
Local Open Scope py_scope.

Lemma tax_body_labels (st : Totals) (tax : TaxRow) :
  gst_tax_type (tax_body st tax) = gst_tax_type tax /\
  account_head (tax_body st tax) = account_head tax.
Proof.
  unfold tax_body.
  destruct (str_in "cgst" _); [split; reflexivity|].
  destruct (str_in "sgst" _ || str_in "utgst" _); [split; reflexivity|].
  destruct (str_in "igst" _); split; reflexivity.
Qed.

Lemma running_totals_labels (b : num) (st : Totals) (l : list TaxRow) :
  map gst_tax_type (running_totals b st l) = map gst_tax_type l /\
  map account_head (running_totals b st l) = map account_head l.
Proof. destruct l as [|tax1 [|tax2 [|tax3 l]]]; split; reflexivity. Qed.

Lemma apply_flags (self : SalesInvoice) :
  net_total (apply_tally_tax_calculation self) = net_total self /\
  base_total (apply_tally_tax_calculation self) = base_total self /\
  is_return (apply_tally_tax_calculation self) = is_return self /\
  docstatus (apply_tally_tax_calculation self) = docstatus self.
Proof.
  unfold apply_tally_tax_calculation.
  destruct (items_loop totals_init (items self)). repeat split.
Qed.

(** X1.  The engine rewrites fields only: the invoice keeps its line
    items and tax rows, in number and order, every item keeps its code,
    amount and three rates, every row keeps its type tag and account
    head, and the document keeps net_total, base_total, is_return and
    docstatus. *)
Theorem engine_keeps_inputs (self : SalesInvoice) :
  let after := apply_tally_tax_calculation self in
  map item_code (items after) = map item_code (items self) /\
  map amount (items after) = map amount (items self) /\
  map cgst_rate (items after) = map cgst_rate (items self) /\
  map sgst_rate (items after) = map sgst_rate (items self) /\
  map igst_rate (items after) = map igst_rate (items self) /\
  map gst_tax_type (taxes after) = map gst_tax_type (taxes self) /\
  map account_head (taxes after) = map account_head (taxes self) /\
  net_total after = net_total self /\
  base_total after = base_total self /\
  is_return after = is_return self /\
  docstatus after = docstatus self.
Proof.
  cbv zeta. rewrite apply_items, apply_taxes, !map_map.
  destruct (running_totals_labels (flt_or0 (base_total self))
              (totals_of (items self))
              (map (tax_body (totals_of (items self))) (taxes self)))
    as [Hg Ha].
  rewrite Hg, Ha, !map_map.
  repeat (split; [reflexivity|]).
  split; [apply map_ext; intros tax; apply tax_body_labels|].
  split; [apply map_ext; intros tax; apply tax_body_labels|].
  apply apply_flags.
Qed.

Lemma same_inputs_annotate (a b : LineItem) :
  same_inputs a b -> annotate a = annotate b.
Proof.
  destruct a, b. unfold same_inputs, annotate, store_amounts, item_tax.
  simpl. intros [-> [-> [-> [-> ->]]]]. reflexivity.
Qed.

Lemma same_inputs_loop (l1 l2 : list LineItem) :
  Forall2 same_inputs l1 l2 ->
  items_loop totals_init l1 = items_loop totals_init l2.
Proof.
  intros H.
  rewrite <- (items_loop_annotate l1), <- (items_loop_annotate l2).
  f_equal. induction H as [|a b l1 l2 Hab _ IH]; [reflexivity|].
  simpl. now rewrite (same_inputs_annotate Hab), IH.
Qed.

(** X2.  What the engine writes on the items and on the document
    depends only on what it reads: two invoices whose items agree on
    code, amount and rates and whose net_total and base_total agree
    get the same items and the same eight document totals, whatever
    their output fields held before. *)
Theorem outputs_ignore_stale_values (a b : SalesInvoice) :
  Forall2 same_inputs (items a) (items b) ->
  net_total a = net_total b ->
  base_total a = base_total b ->
  let a' := apply_tally_tax_calculation a in
  let b' := apply_tally_tax_calculation b in
  items a' = items b' /\
  total_taxes_and_charges a' = total_taxes_and_charges b' /\
  base_total_taxes_and_charges a' = base_total_taxes_and_charges b' /\
  grand_total a' = grand_total b' /\
  base_grand_total a' = base_grand_total b' /\
  rounding_adjustment a' = rounding_adjustment b' /\
  rounded_total a' = rounded_total b' /\
  base_rounded_total a' = base_rounded_total b' /\
  outstanding_amount a' = outstanding_amount b'.
Proof.
  intros Hitems Hnet Hbase. cbv zeta.
  unfold apply_tally_tax_calculation.
  rewrite (same_inputs_loop Hitems), Hnet, Hbase.
  destruct (items_loop totals_init (items b)) as [st l1].
  repeat split.
Qed.

(** X3.  [validate] runs the engine only on a draft that is not a
    return: on a return, or on a document whose docstatus is not 0,
    its result is the host's validation result, untouched. *)
Theorem validate_skips_returns_and_submitted
        (super_validate : SalesInvoice -> SalesInvoice) (self : SalesInvoice) :
  is_return (super_validate self) = true
  \/ docstatus (super_validate self) <> 0%Z ->
  validate super_validate self = super_validate self.
Proof.
  intros H. unfold validate.
  destruct (is_return (super_validate self)); [reflexivity|].
  destruct H as [H|H]; [discriminate|].
  apply Z.eqb_neq in H. now rewrite H.
Qed.

(** X4.  On a draft that is not a return, [validate] ends on a fixed
    point of the engine, with the flags and the input totals of the
    host's validation result: validating leaves nothing for a second
    run of the engine to change. *)
Theorem validate_draft_is_settled
        (super_validate : SalesInvoice -> SalesInvoice) (self : SalesInvoice) :
  is_return (super_validate self) = false ->
  docstatus (super_validate self) = 0%Z ->
  let done := validate super_validate self in
  apply_tally_tax_calculation done = done /\
  is_return done = false /\ docstatus done = 0%Z /\
  net_total done = net_total (super_validate self) /\
  base_total done = base_total (super_validate self).
Proof.
  intros Hr Hd. cbv zeta. unfold validate. rewrite Hr, Hd. simpl.
  destruct (apply_flags (super_validate self)) as [Hn [Hb [Hr' Hd']]].
  rewrite Hn, Hb, Hr', Hd', Hr, Hd.
  split; [|repeat split].
  (* the engine on its own output: the argument of C9, from its lemmas *)
  set (s := super_validate self).
  pose proof (apply_items s) as Hitems.
  pose proof (apply_taxes s) as Htaxes.
  remember (apply_tally_tax_calculation s) as once eqn:Honce.
  unfold apply_tally_tax_calculation at 1.
  rewrite Hitems, Htaxes, items_loop_annotate.
  assert (Hn1 : net_total once = net_total s) by (subst once; apply apply_flags).
  assert (Hb1 : base_total once = base_total s) by (subst once; apply apply_flags).
  assert (Hr1 : is_return once = is_return s) by (subst once; apply apply_flags).
  assert (Hd1 : docstatus once = docstatus s) by (subst once; apply apply_flags).
  rewrite Hn1, Hb1, Hr1, Hd1.
  pose proof (items_loop_items (items s) totals_init) as Hl.
  subst once. unfold apply_tally_tax_calculation, totals_of.
  destruct (items_loop totals_init (items s)) as [st l1].
  cbn [fst snd] in *. subst l1.
  now rewrite tax_rows_twice.
Qed.

End Inputs.

(** ** The tax rows *)

Section Rows.
Context {N : PyNum}.
Local Open Scope py_scope.

Lemma tax_body_by_kind (st : Totals) (tax : TaxRow) :
  tax_body st tax
  = match gst_of_kind (classify tax) with
    | Some k => set_tax tax (total_of k st) (item_wise_of k st)
    | None => tax
    end.
Proof.
  unfold tax_body, classify.
  destruct (str_in "cgst" _); [reflexivity|].
  destruct (str_in "sgst" _ || str_in "utgst" _); [reflexivity|].
  destruct (str_in "igst" _); reflexivity.
Qed.

Lemma total_of_totals (k : gst) (l : list LineItem) :
  total_of k (totals_of l) = py_sum (map (amount_of k) (map annotate l)).
Proof.
  destruct k; simpl.
  - apply totals_of_cgst.
  - apply totals_of_sgst.
  - apply totals_of_igst.
Qed.

(** X5.  A row the classifier recognises ("cgst"; else "sgst" or
    "utgst"; else "igst", tested in that order on the lower-cased type
    tag or account head) receives its type's total - the running sum
    of the items' stored amounts of that type - in all four amount
    fields, and the JSON text of its type's breakup mapping as
    item-wise detail, at whatever position it stands. *)
Theorem recognised_row_receives_its_total
        (self : SalesInvoice) (i : nat) (tax : TaxRow) (k : gst) :
  nth_error (taxes self) i = Some tax ->
  gst_of_kind (classify tax) = Some k ->
  let after := apply_tally_tax_calculation self in
  let v := py_sum (map (amount_of k) (items after)) in
  exists tax',
    nth_error (taxes after) i = Some tax' /\
    tax_amount tax' = v /\
    base_tax_amount tax' = v /\
    tax_amount_after_discount_amount tax' = v /\
    base_tax_amount_after_discount_amount tax' = v /\
    item_wise_tax_detail tax'
    = json_dumps (item_wise_of k (totals_of (items self))).
Proof.
  intros Hnth Hk. cbv zeta. rewrite apply_items, apply_taxes.
  rewrite <- total_of_totals.
  set (st := totals_of (items self)).
  assert (Hmap : nth_error (map (tax_body st) (taxes self)) i
                 = Some (set_tax tax (total_of k st) (item_wise_of k st))).
  { rewrite nth_error_map, Hnth. simpl.
    now rewrite tax_body_by_kind, Hk. }
  destruct (running_totals_nth (flt_or0 (base_total self)) st _ _ Hmap)
    as [w Hw].
  eexists. split; [exact Hw|].
  destruct ((List.length (map (tax_body st) (taxes self)) =? 1)%nat
            || (List.length (map (tax_body st) (taxes self)) =? 2)%nat);
    repeat split.
Qed.

(** X6.  In a two-row invoice whose second row is of the state type,
    the second row's total is the first row's total plus the second
    row's own tax amount, whatever the first row is. *)
Theorem two_row_totals_chain (self : SalesInvoice) (tax1 tax2 : TaxRow) :
  taxes self = [tax1; tax2] ->
  classify tax2 = State ->
  exists t1 t2,
    taxes (apply_tally_tax_calculation self) = [t1; t2] /\
    row_total t2 = row_total t1 + tax_amount t2.
Proof.
  intros Hrows Hk. rewrite apply_taxes, Hrows. simpl.
  eexists. eexists. split; [reflexivity|].
  rewrite (tax_body_by_kind _ tax2), Hk. reflexivity.
Qed.

(** X7.  In a one-row invoice whose row is of the integrated type, the
    row's total is base_total plus the row's own tax amount. *)
Theorem single_row_total (self : SalesInvoice) (tax : TaxRow) :
  taxes self = [tax] ->
  classify tax = Integrated ->
  exists t,
    taxes (apply_tally_tax_calculation self) = [t] /\
    row_total t = flt_or0 (base_total self) + tax_amount t.
Proof.
  intros Hrows Hk. rewrite apply_taxes, Hrows. simpl.
  eexists. split; [reflexivity|].
  rewrite (tax_body_by_kind _ tax), Hk. reflexivity.
Qed.

End Rows.

(** ** The keys of the breakup mappings *)

Section Keys.
Context {N : PyNum}.
Local Open Scope py_scope.

Lemma dict_get_keys (code : string) (d : breakup) :
  dict_get code d <> None <-> In code (dict_keys d).
Proof.
  induction d as [|[k v] d IH]; simpl.
  - split; [congruence | intros []].
  - destruct (String.eqb_spec code k) as [->|Hne].
    + split; [now left | discriminate].
    + rewrite IH. split; [now right | intros [H|H]; [congruence | exact H]].
Qed.

Lemma dict_set_keys (code : string) (v : num * num) (d : breakup) :
  dict_keys (dict_set code v d)
  = if existsb (String.eqb code) (dict_keys d)
    then dict_keys d else dict_keys d ++ [code].
Proof.
  induction d as [|[k w] d IH]; simpl; [reflexivity|].
  destruct (String.eqb_spec code k) as [->|Hne]; simpl; [reflexivity|].
  rewrite IH.
  now destruct (existsb (String.eqb code) (dict_keys d)).
Qed.

Lemma dict_set_NoDup (code : string) (v : num * num) (d : breakup) :
  NoDup (dict_keys d) -> NoDup (dict_keys (dict_set code v d)).
Proof.
  intros Hd. rewrite dict_set_keys.
  destruct (existsb (String.eqb code) (dict_keys d)) eqn:E; [exact Hd|].
  apply NoDup_app; [exact Hd | repeat constructor; intros [] |].
  intros x Hx [Heq|[]]. subst x.
  assert (existsb (String.eqb code) (dict_keys d) = true); [|congruence].
  apply existsb_exists. exists code. split; [exact Hx | apply String.eqb_refl].
Qed.

Lemma item_wise_of_loop (k : gst) (l : list LineItem) :
  item_wise_of k (totals_of l) = breakup_from (rate_of k) [] l.
Proof.
  unfold totals_of. destruct k; simpl.
  - apply loop_cgst_item_wise.
  - apply loop_sgst_item_wise.
  - apply loop_igst_item_wise.
Qed.

Lemma breakup_from_keys (rate : LineItem -> option num) (code : string)
      (l : list LineItem) :
  forall d,
    In code (dict_keys (breakup_from rate d l)) <->
    In code (dict_keys d) \/
    exists item, In item l /\ item_code item = code /\
                 (flt_or0 (rate item) >? py_float 0) = true.
Proof.
  induction l as [|item l IH]; intros d.
  - simpl. split; [now left | intros [H|[item [[] _]]]; exact H].
  - rewrite breakup_from_cons, IH. unfold record_entry.
    destruct (flt_or0 (rate item) >? py_float 0) eqn:Hr.
    + rewrite dict_set_keys.
      destruct (existsb (String.eqb (item_code item)) (dict_keys d)) eqn:E.
      * split.
        -- intros [H|[it [Hin H]]]; [now left|].
           right. exists it. split; [now right | exact H].
        -- intros [H|[it [[<-|Hin] [Hc Hp]]]]; [now left | | ].
           ++ left. apply existsb_exists in E. destruct E as [x [Hx Hxe]].
              apply String.eqb_eq in Hxe. congruence.
           ++ right. exists it. repeat split; assumption.
      * rewrite in_app_iff. split.
        -- intros [[H|[<-|[]]]|[it [Hin H]]].
           ++ now left.
           ++ right. exists item. split; [now left | split; [reflexivity|exact Hr]].
           ++ right. exists it. split; [now right | exact H].
        -- intros [H|[it [[<-|Hin] [Hc Hp]]]].
           ++ left. now left.
           ++ left. right. left. exact Hc.
           ++ right. exists it. repeat split; assumption.
    + split.
      * intros [H|[it [Hin H]]]; [now left|].
        right. exists it. split; [now right | exact H].
      * intros [H|[it [[<-|Hin] [Hc Hp]]]]; [now left | congruence |].
        right. exists it. repeat split; assumption.
Qed.

Lemma breakup_from_NoDup (rate : LineItem -> option num) (l : list LineItem) :
  forall d, NoDup (dict_keys d) -> NoDup (dict_keys (breakup_from rate d l)).
Proof.
  induction l as [|item l IH]; intros d Hd; [exact Hd|].
  rewrite breakup_from_cons. apply IH. unfold record_entry.
  destruct (flt_or0 (rate item) >? py_float 0); [|exact Hd].
  now apply dict_set_NoDup.
Qed.

(** X8.  The keys of a type's breakup mapping are exactly the item
    codes that occur on some line with a rate above zero for that
    type: a code whose lines all have a zero, negative or missing rate
    has no entry, and no other key appears. *)
Theorem breakup_keys_are_taxed_codes
        (k : gst) (l : list LineItem) (code : string) :
  dict_get code (item_wise_of k (totals_of l)) <> None <->
  exists item, In item l /\ item_code item = code /\
               (flt_or0 (rate_of k item) >? py_float 0) = true.
Proof.
  rewrite item_wise_of_loop, dict_get_keys, breakup_from_keys.
  split; [intros [[]|H]; exact H | intros H; now right].
Qed.

(** X9.  A breakup mapping never holds the same item code twice,
    however many lines carry it. *)
Theorem breakup_keys_distinct (k : gst) (l : list LineItem) :
  NoDup (dict_keys (item_wise_of k (totals_of l))).
Proof.
  rewrite item_wise_of_loop. apply breakup_from_NoDup. constructor.
Qed.

End Keys.

(** ** The two rounding helpers, on exact rationals *)

(** Reads the number operations as those of [Q]. *)
Ltac exact_ops :=
  cbn [py_float py_add py_sub py_mul py_div py_ge py_gt py_eq py_int
       py_floor py_half Exact] in *.

Section Rounding.
Local Open Scope Q_scope.

Lemma Q_int_nonpos (x : Q) : x <= 0 -> Q_int x = Qceiling x.
Proof.
  destruct x as [n d]. unfold Qle, Q_int, Qceiling, Qfloor, Qopp. simpl.
  intros H. rewrite <- (Z.opp_involutive n) at 1.
  rewrite Z.quot_opp_l by lia. f_equal. apply Z.quot_div_nonneg; lia.
Qed.

Lemma Q_int_monotone (x y : Q) : x <= y -> (Q_int x <= Q_int y)%Z.
Proof.
  intros H. destruct (Qlt_le_dec x 0) as [Hx|Hx];
    destruct (Qlt_le_dec y 0) as [Hy|Hy].
  - rewrite !Q_int_nonpos by lra. now apply Qceiling_resp_le.
  - rewrite (Q_int_nonpos (x := x)), (Q_int_nonneg (x := y)) by lra.
    transitivity 0%Z.
    + change 0%Z with (Qceiling 0). apply Qceiling_resp_le. lra.
    + change 0%Z with (Qfloor 0). now apply Qfloor_resp_le.
  - lra.
  - rewrite !Q_int_nonneg by lra. now apply Qfloor_resp_le.
Qed.

Lemma scale_positive (n : nat) : 0 < inject_Z (10 ^ Z.of_nat n).
Proof.
  change 0 with (inject_Z 0). rewrite <- Zlt_Qlt.
  apply Z.pow_pos_nonneg; lia.
Qed.

Lemma round_half_scaled (x : Q) (n : nat) :
  round_half (N := Exact) x n
  = inject_Z (scaled_int x n) / inject_Z (10 ^ Z.of_nat n).
Proof. reflexivity. Qed.

(** X11.  [round_half] is monotone, on all values: a larger input
    never rounds to a smaller result. *)
Theorem round_half_monotone (x y : Q) (n : nat) :
  x <= y -> round_half (N := Exact) x n <= round_half (N := Exact) y n.
Proof.
  intros H. pose proof (scale_positive n) as Hm.
  rewrite !round_half_scaled. unfold Qdiv.
  apply Qmult_le_compat_r.
  - rewrite <- Zle_Qle. unfold scaled_int. apply Q_int_monotone.
    assert (x * inject_Z (10 ^ Z.of_nat n) <= y * inject_Z (10 ^ Z.of_nat n));
      [|lra].
    apply Qmult_le_compat_r; lra.
  - apply Qlt_le_weak, Qinv_lt_0_compat, Hm.
Qed.

Lemma scaled_int_nonneg (x : Q) (n : nat) : 0 <= x -> (0 <= scaled_int x n)%Z.
Proof.
  intros Hx. pose proof (scale_positive n) as Hm. unfold scaled_int.
  change 0%Z with (Q_int 0). apply Q_int_monotone.
  assert (0 <= x * inject_Z (10 ^ Z.of_nat n)); [|lra].
  apply Qmult_le_0_compat; lra.
Qed.

Lemma round_half_nonneg (x : Q) (n : nat) :
  0 <= x -> 0 <= round_half (N := Exact) x n.
Proof.
  intros Hx. pose proof (scale_positive n) as Hm.
  rewrite round_half_scaled. apply Qle_shift_div_l; [exact Hm|].
  assert (E : 0 * inject_Z (10 ^ Z.of_nat n) == 0) by ring. rewrite E.
  change 0 with (inject_Z 0). rewrite <- Zle_Qle.
  now apply scaled_int_nonneg.
Qed.

Lemma round_half_up_exact (x : Q) :
  round_half_up (N := Exact) x
  = if Qle_bool (1 # 2) (x - inject_Z (Q_int x))
    then (Q_int x + 1)%Z else Q_int x.
Proof. reflexivity. Qed.

(** X13.  On a value that is not negative, [round_half_up] returns
    the nearest integer, an exact tie going up:
    x - 0.5 < round_half_up(x) <= x + 0.5. *)
Theorem round_half_up_is_nearest (x : Q) :
  0 <= x ->
  x - (1 # 2) < inject_Z (round_half_up (N := Exact) x) /\
  inject_Z (round_half_up (N := Exact) x) <= x + (1 # 2).
Proof.
  intros Hx. rewrite round_half_up_exact, (Q_int_nonneg Hx).
  pose proof (Qfloor_le x) as Flo. pose proof (Qlt_floor x) as Fhi.
  rewrite inject_Z_plus in Fhi. change (inject_Z 1) with 1 in Fhi.
  destruct (Qle_bool (1 # 2) (x - inject_Z (Qfloor x))) eqn:E.
  - apply Qle_bool_iff in E. rewrite inject_Z_plus.
    change (inject_Z 1) with 1. split; lra.
  - assert (E' : ~ (1 # 2 <= x - inject_Z (Qfloor x))).
    { intros H. apply Qle_bool_iff in H. congruence. }
    split; lra.
Qed.

(** X14.  On a value that is not positive, [round_half_up] only
    truncates toward zero: its fractional part x - int(x) is never
    0.5 or more, so the result is int(x), which is at least x and
    less than x + 1. *)
Theorem round_half_up_truncates_negatives (x : Q) :
  x <= 0 ->
  round_half_up (N := Exact) x = Q_int x /\
  x <= inject_Z (round_half_up (N := Exact) x) /\
  inject_Z (round_half_up (N := Exact) x) < x + 1.
Proof.
  intros Hx. rewrite round_half_up_exact, (Q_int_nonpos Hx).
  pose proof (Qle_ceiling x) as Clo. pose proof (Qceiling_lt x) as Chi.
  unfold Z.sub in Chi. rewrite inject_Z_plus in Chi.
  change (inject_Z (Z.opp 1)) with (- (1)) in Chi.
  destruct (Qle_bool (1 # 2) (x - inject_Z (Qceiling x))) eqn:E.
  - apply Qle_bool_iff in E. exfalso. lra.
  - split; [reflexivity | split; lra].
Qed.

End Rounding.

(** ** Document totals, on exact rationals *)

Section Totalling.
Local Open Scope Q_scope.

Local Abbreviation invoice := (@SalesInvoice Exact).
Local Abbreviation line := (@LineItem Exact).

Lemma apply_grand_totals (self : invoice) :
  let after := apply_tally_tax_calculation self in
  let st := totals_of (items self) in
  let tax := total_cgst st + total_sgst st + total_igst st in
  total_taxes_and_charges after = tax /\
  grand_total after = flt_or0 (N := Exact) (net_total self) + tax /\
  base_grand_total after = flt_or0 (N := Exact) (base_total self) + tax /\
  rounded_total after = inject_Z (round_half_up (grand_total after)).
Proof.
  cbv zeta. unfold apply_tally_tax_calculation, totals_of.
  destruct (items_loop totals_init (items self)) as [st l1].
  repeat split.
Qed.

(** X16.  base_rounded_total is the integer nearest to
    base_grand_total, an exact tie going up, for negative totals too:
    base_grand_total - 0.5 < base_rounded_total <= base_grand_total
    + 0.5, so rounding_adjustment lies in (-0.5, 0.5]. *)
Theorem base_rounded_total_is_nearest (self : invoice) :
  let after := apply_tally_tax_calculation self in
  base_grand_total after - (1 # 2) < base_rounded_total after /\
  base_rounded_total after <= base_grand_total after + (1 # 2) /\
  - (1 # 2) < rounding_adjustment after /\
  rounding_adjustment after <= 1 # 2.
Proof.
  cbv zeta.
  destruct (base_rounded_total_inlined self) as [Hb Ha]. cbv zeta in Hb, Ha.
  rewrite Ha, Hb. exact_ops.
  pose proof (floor_half_up_bounds
                (base_grand_total (apply_tally_tax_calculation self)))
    as [Hlo Hhi].
  repeat split; lra.
Qed.

(** X17.  When net_total and base_total hold the same value and
    grand_total is not negative, the two roundings agree:
    rounded_total equals base_rounded_total (and outstanding_amount),
    and grand_total equals base_grand_total. *)
Theorem rounded_totals_agree (self : invoice) :
  let after := apply_tally_tax_calculation self in
  net_total self = base_total self ->
  0 <= grand_total after ->
  grand_total after = base_grand_total after /\
  rounded_total after = base_rounded_total after /\
  rounded_total after = outstanding_amount after.
Proof.
  cbv zeta. intros Hnet Hpos.
  destruct (apply_grand_totals self) as [_ [Hg [Hbg Hr]]].
  destruct (base_rounded_total_inlined self) as [Hb _].
  cbv zeta in Hg, Hbg, Hr, Hb.
  set (after := apply_tally_tax_calculation self) in *.
  assert (Hsame : grand_total after = base_grand_total after).
  { rewrite Hg, Hbg, Hnet. reflexivity. }
  assert (Hout : outstanding_amount after = base_rounded_total after).
  { unfold after, apply_tally_tax_calculation.
    destruct (items_loop totals_init (items self)); reflexivity. }
  split; [exact Hsame|].
  rewrite Hout, Hr, Hb, <- Hsame, (floor_half_up_nonneg Hpos).
  split; reflexivity.
Qed.

Lemma unrounded_tax_nonneg (item : line) (rate : option Q) :
  0 <= flt_or0 (N := Exact) (amount item) ->
  0 <= flt_or0 (N := Exact) rate ->
  0 <= unrounded_tax item rate.
Proof.
  intros Ha Hr. unfold unrounded_tax.
  apply Qle_shift_div_l; [reflexivity|].
  assert (E : 0 * 100 == 0) by ring. rewrite E.
  now apply Qmult_le_0_compat.
Qed.

Lemma item_tax_unrounded (item : line) (rate : option Q) :
  item_tax item rate = round_half (N := Exact) (unrounded_tax item rate) 2.
Proof. reflexivity. Qed.

Lemma sum_from_cons (rate : line -> option Q) (item : line) (l : list line)
      (t0 : Q) :
  sum_from rate t0 (item :: l)
  = sum_from rate (t0 + item_tax item (rate item)) l.
Proof. reflexivity. Qed.

Lemma sum_from_nonneg (rate : line -> option Q) (l : list line) :
  Forall (fun item => 0 <= item_tax item (rate item)) l ->
  forall t0, t0 <= sum_from rate t0 l.
Proof.
  induction 1 as [|item l Hitem _ IH]; intros t0.
  - apply Qle_refl.
  - rewrite sum_from_cons.
    specialize (IH (t0 + item_tax item (rate item))). lra.
Qed.

Lemma nonneg_item_taxes (k : gst) (l : list line) :
  Forall nonneg_item l ->
  Forall (fun item => 0 <= item_tax item (rate_of k item)) l.
Proof.
  intros H. eapply Forall_impl; [|exact H].
  intros item [Ha [Hc [Hs Hi]]]. rewrite item_tax_unrounded.
  apply round_half_nonneg, unrounded_tax_nonneg; [exact Ha|].
  destruct k; assumption.
Qed.

Lemma total_of_sum_from (k : gst) (l : list line) :
  total_of k (totals_of l) = sum_from (rate_of k) 0 l.
Proof.
  unfold totals_of. destruct k.
  - exact (loop_total_cgst l totals_init).
  - exact (loop_total_sgst l totals_init).
  - exact (loop_total_igst l totals_init).
Qed.

(** X19.  When no item has a negative amount or a negative rate, no
    stored tax amount is negative, total_taxes_and_charges is not
    negative, and grand_total and base_grand_total are at least
    net_total and base_total. *)
Theorem taxes_never_reduce_totals (self : invoice) :
  let after := apply_tally_tax_calculation self in
  Forall nonneg_item (items self) ->
  Forall (fun item => 0 <= cgst_amount item /\ 0 <= sgst_amount item
                      /\ 0 <= igst_amount item) (items after) /\
  0 <= total_taxes_and_charges after /\
  flt_or0 (N := Exact) (net_total self) <= grand_total after /\
  flt_or0 (N := Exact) (base_total self) <= base_grand_total after.
Proof.
  cbv zeta. intros H.
  destruct (apply_grand_totals self) as [Ht [Hg [Hbg _]]].
  cbv zeta in Ht, Hg, Hbg. rewrite Ht, Hg, Hbg, apply_items.
  pose proof (@sum_from_nonneg (rate_of CGST) _ (nonneg_item_taxes CGST H) 0) as Hc.
  pose proof (@sum_from_nonneg (rate_of SGST) _ (nonneg_item_taxes SGST H) 0) as Hs.
  pose proof (@sum_from_nonneg (rate_of IGST) _ (nonneg_item_taxes IGST H) 0) as Hi.
  rewrite <- total_of_sum_from in Hc, Hs, Hi. simpl in Hc, Hs, Hi.
  split.
  - apply Forall_map.
    pose proof (nonneg_item_taxes CGST H) as Fc.
    pose proof (nonneg_item_taxes SGST H) as Fs.
    pose proof (nonneg_item_taxes IGST H) as Fi.
    rewrite Forall_forall in *. intros item Hin.
    repeat split; [apply Fc | apply Fs | apply Fi]; exact Hin.
  - exact_ops. repeat split; lra.
Qed.

Lemma exact_no_rate (v : option Q) :
  no_rate (N := Exact) v -> flt_or0 (N := Exact) v = 0.
Proof.
  intros [->|[r [-> Hr]]]; [reflexivity|].
  unfold flt_or0, py_truth. now rewrite Hr.
Qed.

Lemma sum_from_zero (rate : line -> option Q) (l : list line) :
  Forall (fun item => no_rate (rate item)) l ->
  forall t0, sum_from rate t0 l == t0.
Proof.
  induction 1 as [|item l Hitem _ IH]; intros t0; [reflexivity|].
  rewrite sum_from_cons, IH.
  rewrite (@exact_item_tax_zero item (rate item) (exact_no_rate Hitem)). ring.
Qed.

Lemma breakup_from_no_rate (rate : line -> option Q) (l : list line) :
  Forall (fun item => no_rate (rate item)) l ->
  breakup_from rate [] l = [].
Proof.
  induction 1 as [|item l Hitem _ IH]; [reflexivity|].
  rewrite breakup_from_cons. unfold record_entry.
  now rewrite (exact_no_rate Hitem).
Qed.

(** X21.  An invoice whose items all have their three rates missing
    or zero (no items at all included) gets a total tax of zero, a
    grand_total equal to net_total, a base_grand_total equal to
    base_total, and three empty breakup mappings. *)
Theorem untaxed_invoice (self : invoice) :
  Forall (fun item => no_rate (cgst_rate item) /\ no_rate (sgst_rate item)
                      /\ no_rate (igst_rate item)) (items self) ->
  let after := apply_tally_tax_calculation self in
  total_taxes_and_charges after == 0 /\
  grand_total after == flt_or0 (N := Exact) (net_total self) /\
  base_grand_total after == flt_or0 (N := Exact) (base_total self) /\
  forall k, item_wise_of k (totals_of (items self)) = [].
Proof.
  intros H. cbv zeta.
  assert (Hk : forall k, Forall (fun item => no_rate (rate_of k item))
                                (items self)).
  { intros k. eapply Forall_impl; [|exact H].
    intros item [Hc [Hs Hi]]. destruct k; assumption. }
  destruct (apply_grand_totals self) as [Ht [Hg [Hbg _]]].
  cbv zeta in Ht, Hg, Hbg. rewrite Ht, Hg, Hbg.
  pose proof (@sum_from_zero (rate_of CGST) _ (Hk CGST) 0) as Hc.
  pose proof (@sum_from_zero (rate_of SGST) _ (Hk SGST) 0) as Hs.
  pose proof (@sum_from_zero (rate_of IGST) _ (Hk IGST) 0) as Hi.
  rewrite <- total_of_sum_from in Hc, Hs, Hi. simpl in Hc, Hs, Hi.
  exact_ops. repeat split; try lra.
  intros k. rewrite item_wise_of_loop. apply breakup_from_no_rate, Hk.
Qed.

End Totalling.

(** ** The tax rows' amounts, row by row *)

Section RowAmounts.
Context {N : PyNum}.
Local Open Scope py_scope.

Lemma running_totals_amounts (b : num) (st : Totals) (l : list TaxRow) :
  map tax_amount (running_totals b st l) = map tax_amount l.
Proof. destruct l as [|tax1 [|tax2 [|tax3 l]]]; reflexivity. Qed.

Lemma recognised_rows_amounts (st : Totals) (l : list TaxRow) :
  Forall (fun tax => classify tax <> Unrecognized) l ->
  map tax_amount (map (tax_body st) l)
  = map (fun k => total_of k st) (map row_gst l).
Proof.
  induction 1 as [|tax l Hk _ IH]; [reflexivity|].
  cbn [map]. rewrite IH, tax_body_by_kind. f_equal.
  unfold row_gst. destruct (classify tax); try contradiction; reflexivity.
Qed.

Lemma kind_eqb_gst (tax : TaxRow) :
  classify tax <> Unrecognized ->
  tax_kind_eqb (classify tax) Central = gst_eqb CGST (row_gst tax) /\
  tax_kind_eqb (classify tax) State = gst_eqb SGST (row_gst tax) /\
  tax_kind_eqb (classify tax) Integrated = gst_eqb IGST (row_gst tax).
Proof.
  unfold row_gst. destruct (classify tax); try contradiction; repeat split.
Qed.

Lemma count_kind_gst (l : list TaxRow) :
  Forall (fun tax => classify tax <> Unrecognized) l ->
  count_kind Central l = count_gst CGST (map row_gst l) /\
  count_kind State l = count_gst SGST (map row_gst l) /\
  count_kind Integrated l = count_gst IGST (map row_gst l).
Proof.
  unfold count_kind, count_gst.
  induction 1 as [|tax l Hk _ [IHc [IHs IHi]]]; [repeat split|].
  cbn [map filter]. destruct (@kind_eqb_gst tax Hk) as [Ec [Es Ei]].
  rewrite Ec, Es, Ei.
  destruct (gst_eqb CGST (row_gst tax)), (gst_eqb SGST (row_gst tax)),
    (gst_eqb IGST (row_gst tax));
    cbn [List.length]; rewrite IHc, IHs, IHi; repeat split.
Qed.

End RowAmounts.

(** ** Addition in binary64 *)

Section Binary64Addition.
Local Open Scope float_scope.

Local Abbreviation same := (@py_same Binary64).
Local Abbreviation zero := (@py_zero Binary64).

Lemma SFcompare_Eq (A B : spec_float) :
  SFcompare A B = Some Eq ->
  A = B \/ ((exists s, A = S754_zero s) /\ (exists t, B = S754_zero t)).
Proof.
  destruct A as [s|s| |s m e], B as [t|t| |t n f]; simpl; intros H;
    try discriminate; try (right; split; eexists; reflexivity);
    try (destruct s; discriminate); try (destruct t; discriminate).
  - destruct s, t; try discriminate; now left.
  - destruct s, t; try discriminate;
      destruct (Z.compare_spec e f) as [->| |]; try discriminate;
      injection H as H;
      [apply (f_equal CompOpp) in H; rewrite CompOpp_involutive in H;
       simpl in H|];
      apply Pos.compare_eq in H; left; congruence.
Qed.

(** [x == 0] holds of the two zeros, and of nothing else. *)
Lemma zero_spec (a : float) : zero a <-> exists s, Prim2SF a = S754_zero s.
Proof.
  unfold py_zero. change (@py_eq Binary64 a (@py_float Binary64 0)) with (a =? 0).
  rewrite eqb_spec. change (Prim2SF 0) with (S754_zero false).
  unfold SFeqb. split.
  - destruct (Prim2SF a) as [s|s| |s m e]; simpl; try discriminate; eauto;
      destruct s; discriminate.
  - intros [s ->]. reflexivity.
Qed.

Lemma same_spec (a b : float) : same a b <-> a = b \/ (zero a /\ zero b).
Proof.
  unfold py_same. change (@py_eq Binary64 a b) with (a =? b).
  rewrite !zero_spec. split; (intros [H|H]; [now left|]).
  - rewrite eqb_spec in H. unfold SFeqb in H.
    destruct (SFcompare (Prim2SF a) (Prim2SF b)) as [[]|] eqn:E;
      try discriminate.
    apply SFcompare_Eq in E.
    destruct E as [E|E]; [left; now apply Prim2SF_inj | now right].
  - right. rewrite eqb_spec. destruct H as [[s ->] [t ->]]. reflexivity.
Qed.

Lemma add_comm (a b : float) : a + b = b + a.
Proof.
  apply Prim2SF_inj. rewrite !add_spec. unfold SF64add.
  destruct (Prim2SF a) as [s|s| |s m e], (Prim2SF b) as [t|t| |t n f];
    simpl; try reflexivity; try (destruct s, t; reflexivity).
  rewrite (Z.min_comm f e), Z.add_comm. reflexivity.
Qed.

(** Adding a zero changes at most the sign of a zero. *)
Lemma add_zero_r (a z : float) : zero z -> same (a + z) a.
Proof.
  intros Hz. apply same_spec. apply zero_spec in Hz. destruct Hz as [t Ht].
  destruct (Prim2SF a) as [s|s| |s m e] eqn:Ha.
  - right. rewrite !zero_spec. split; [|exists s; exact Ha].
    rewrite add_spec, Ha, Ht. destruct s, t; eexists; reflexivity.
  - left. apply Prim2SF_inj. now rewrite add_spec, Ha, Ht.
  - left. apply Prim2SF_inj. now rewrite add_spec, Ha, Ht.
  - left. apply Prim2SF_inj. now rewrite add_spec, Ha, Ht.
Qed.

Lemma add_zero_l (a z : float) : zero z -> same (z + a) a.
Proof. rewrite add_comm. apply add_zero_r. Qed.

#[local] Instance same_equivalence : Equivalence same.
Proof.
  split.
  - intros a. now left.
  - intros a b. rewrite !same_spec.
    intros [H|[H1 H2]]; [left; congruence | right; tauto].
  - intros a b c. rewrite !same_spec.
    intros [->|[H1 H2]] [H|[H3 H4]]; try tauto. subst. tauto.
Qed.

#[local] Instance add_proper : Proper (same ==> same ==> same) PrimFloat.add.
Proof.
  assert (L : forall a a' b, same a a' -> same (a + b) (a' + b)).
  { intros a a' b H. apply same_spec in H.
    destruct H as [->|[H1 H2]]; [reflexivity|].
    transitivity b; [|symmetry]; now apply add_zero_l. }
  intros a a' Ha b b' Hb. transitivity (a' + b); [now apply L|].
  rewrite !(add_comm a'). now apply L.
Qed.

Lemma zero_same (a : float) : zero a -> same a 0.
Proof. intros H. right. exact H. Qed.

Lemma zero_zero : zero 0.
Proof. reflexivity. Qed.

(** A running sum does not see the sign of a zero it starts from. *)
Lemma fold_add_proper (l : list float) (a a' : float) :
  same a a' -> same (fold_left PrimFloat.add l a) (fold_left PrimFloat.add l a').
Proof.
  revert a a'. induction l as [|x l IH]; intros a a' H; [exact H|].
  cbn [fold_left]. apply IH. now rewrite H.
Qed.

Section Kinds.
Variable v : gst -> float.

Local Abbreviation counts := (@nonzero_total Binary64 v).

Lemma counts_false (k : gst) : counts k = false -> zero (v k).
Proof.
  unfold nonzero_total, py_zero.
  now destruct (@py_eq Binary64 (v k) (@py_float Binary64 0)).
Qed.

(** Zero amounts may be left out of the running sum. *)
Lemma fold_add_drops_zeros (ks : list gst) :
  forall a, same (fold_left PrimFloat.add (map v ks) a)
                 (fold_left PrimFloat.add (map v (filter counts ks)) a).
Proof.
  induction ks as [|k ks IH]; intros a; [reflexivity|].
  cbn [map filter fold_left]. destruct (counts k) eqn:Hk.
  - cbn [map fold_left]. apply IH.
  - rewrite <- IH. apply fold_add_proper.
    now apply add_zero_r, counts_false.
Qed.

Lemma count_gst_filter (k : gst) (ks : list gst) :
  count_gst k (filter counts ks)
  = if counts k then count_gst k ks else 0%nat.
Proof.
  unfold count_gst. induction ks as [|j ks IH]; [now destruct (counts k)|].
  assert (Hkj : gst_eqb k j = true -> k = j).
  { destruct k, j; try discriminate; reflexivity. }
  cbn [filter]. destruct (counts j) eqn:Hj.
  - cbn [filter]. destruct (gst_eqb k j) eqn:E; cbn [List.length]; rewrite IH.
    + rewrite (Hkj eq_refl), Hj. reflexivity.
    + reflexivity.
  - rewrite IH. destruct (gst_eqb k j) eqn:E; [|reflexivity].
    rewrite (Hkj eq_refl), Hj. reflexivity.
Qed.

(** The rows' amounts against the sum of the three totals, when each
    type has one row or a zero total and some total is zero. *)
Lemma sum_of_kinds (ks : list gst) :
  (forall k, count_gst k ks = 1%nat \/ zero (v k)) ->
  (exists k, zero (v k)) ->
  same (fold_left PrimFloat.add (map v ks) 0) (v CGST + v SGST + v IGST).
Proof.
  intros Hone Hsome. rewrite fold_add_drops_zeros.
  assert (Hcount : forall k, count_gst k (filter counts ks)
                             = if counts k then 1%nat else 0%nat).
  { intros k. rewrite count_gst_filter. destruct (counts k) eqn:Hk; [|reflexivity].
    destruct (Hone k) as [H|H]; [exact H|].
    unfold nonzero_total in Hk. unfold py_zero in H.
    rewrite H in Hk. discriminate. }
  pose proof (Hcount CGST) as Hc. pose proof (Hcount SGST) as Hs.
  pose proof (Hcount IGST) as Hi.
  assert (Hall : counts CGST && counts SGST && counts IGST = false).
  { destruct Hsome as [k Hk]. unfold py_zero in Hk.
    destruct k; unfold nonzero_total; rewrite Hk; cbn [negb andb];
      rewrite ?andb_false_r; reflexivity. }
  pose proof (counts_false CGST) as Zc. pose proof (counts_false SGST) as Zs.
  pose proof (counts_false IGST) as Zi.
  unfold count_gst in Hc, Hs, Hi.
  destruct (counts CGST), (counts SGST), (counts IGST); try discriminate Hall;
    try specialize (Zc eq_refl); try specialize (Zs eq_refl);
    try specialize (Zi eq_refl);
    destruct (filter counts ks) as [|[] [|[] [|[] f]]];
    cbn in Hc, Hs, Hi; try discriminate; cbn [map fold_left];
    rewrite ?(add_zero_l _ zero_zero);
    rewrite ?(add_zero_r _ Zc), ?(add_zero_r _ Zs), ?(add_zero_r _ Zi),
      ?(add_zero_l _ Zc), ?(add_zero_l _ Zs), ?(add_zero_l _ Zi);
    try reflexivity;
    try (rewrite add_comm; reflexivity);
    try (symmetry; now apply zero_same).
Qed.

End Kinds.

(** C4, amended.  After the engine runs, the sum of tax_amount over
    the invoice's tax rows and total_taxes_and_charges are the same
    value (identical, or equal under ==), provided every tax row is
    recognised by the classifier, each of the three tax types either
    has exactly one row or has a total equal to zero, and at least one
    of the three totals is zero.  Proved of the binary64 arithmetic,
    for the rows in any order. *)
Theorem tax_rows_sum_to_total (self : @SalesInvoice Binary64) :
  let after := apply_tally_tax_calculation self in
  let total (k : gst) := py_sum (map (amount_of k) (items after)) in
  Forall (fun tax => classify tax <> Unrecognized) (taxes self) ->
  (count_kind Central (taxes self) = 1%nat \/ py_zero (total CGST)) ->
  (count_kind State (taxes self) = 1%nat \/ py_zero (total SGST)) ->
  (count_kind Integrated (taxes self) = 1%nat \/ py_zero (total IGST)) ->
  py_zero (total CGST) \/ py_zero (total SGST) \/ py_zero (total IGST) ->
  py_same (py_sum (map tax_amount (taxes after)))
          (total_taxes_and_charges after).
Proof.
  cbv zeta. intros Hrec Hc Hs Hi Hsome.
  rewrite apply_total_taxes, apply_taxes, running_totals_amounts.
  rewrite (recognised_rows_amounts _ Hrec).
  rewrite apply_items in Hc, Hs, Hi, Hsome.
  rewrite <- (total_of_totals CGST (items self)) in Hc, Hsome.
  rewrite <- (total_of_totals SGST (items self)) in Hs, Hsome.
  rewrite <- (total_of_totals IGST (items self)) in Hi, Hsome.
  destruct (count_kind_gst Hrec) as [Ec [Es Ei]].
  rewrite Ec in Hc. rewrite Es in Hs. rewrite Ei in Hi.
  set (st := totals_of (items self)) in *.
  apply (sum_of_kinds (fun k => total_of k st)).
  - intros [| |]; assumption.
  - destruct Hsome as [H|[H|H]]; eauto.
Qed.

End Binary64Addition.

(** ** The rounding of base_grand_total *)

Section BaseRounding.
Context {N : PyNum}.
Local Open Scope py_scope.


End BaseRounding.




(** ** The further properties on the sample invoices *)

Section MoreEvaluated.
Local Open Scope string_scope.

Local Abbreviation run64 := (apply_tally_tax_calculation (N := Binary64)).
Local Abbreviation runQ := (apply_tally_tax_calculation (N := Exact)).

(** Witness of X2: the intrastate invoice and the engine's own output
    on it, whose amount fields differ. *)
Lemma outputs_ignore_stale_values_witness :
  map cgst_amount (items (run64 intrastate_invoice))
  <> map cgst_amount (items (intrastate_invoice (N := Binary64))) /\
  items (run64 intrastate_invoice) = items (run64 (run64 intrastate_invoice)) /\
  grand_total (run64 intrastate_invoice)
  = grand_total (run64 (run64 intrastate_invoice)).
Proof.
  split.
  - intros H. apply (f_equal (fun l => PrimFloat.eqb (nth 0 l 0%float) 0)) in H.
    vm_compute in H. discriminate H.
  - assert (Hin : Forall2 same_inputs
                    (items (intrastate_invoice (N := Binary64)))
                    (items (run64 intrastate_invoice))).
    { repeat constructor. }
    destruct (outputs_ignore_stale_values
                intrastate_invoice (run64 intrastate_invoice)
                Hin eq_refl eq_refl) as [Hi [_ [_ [Hg _]]]].
    split; [exact Hi | exact Hg].
Defined.

(** Witness of X3: a return comes back as the host left it. *)
Lemma validate_skips_returns_and_submitted_witness :
  validate (fun self => self) (return_invoice (N := Binary64))
  = return_invoice.
Proof.
  apply (validate_skips_returns_and_submitted (fun self => self)).
  left. reflexivity.
Defined.

(** Witness of X4: the intrastate draft. *)
Lemma validate_draft_is_settled_witness :
  run64 (validate (fun self => self) intrastate_invoice)
  = validate (fun self => self) intrastate_invoice.
Proof.
  apply (validate_draft_is_settled (fun self => self)
           (intrastate_invoice (N := Binary64)) eq_refl eq_refl).
Defined.

(** Witness of X5: the SGST row of the three-row invoice. *)
Lemma recognised_row_receives_its_total_witness :
  exists tax' : @TaxRow Binary64,
    nth_error (taxes (run64 freight_invoice)) 1 = Some tax' /\
    tax_amount tax'
    = py_sum (map sgst_amount (items (run64 freight_invoice))).
Proof.
  destruct (@recognised_row_receives_its_total Binary64 freight_invoice 1
              (new_tax "Output Tax SGST - K" 90 1180) SGST eq_refl eq_refl)
    as [tax' [Hnth [Ha _]]].
  exists tax'. split; [exact Hnth | exact Ha].
Defined.

(** Witness of X6: the intrastate invoice. *)
Lemma two_row_totals_chain_witness :
  exists t1 t2 : @TaxRow Binary64,
    taxes (run64 intrastate_invoice) = [t1; t2] /\
    row_total t2 = @py_add Binary64 (row_total t1) (tax_amount t2).
Proof.
  apply (@two_row_totals_chain Binary64 intrastate_invoice
           (new_tax "Output Tax CGST - K" 90 1090)
           (new_tax "Output Tax SGST - K" 90 1180) eq_refl eq_refl).
Defined.

(** Witness of X7: the interstate invoice. *)
Lemma single_row_total_witness :
  exists t : @TaxRow Binary64,
    taxes (run64 interstate_invoice) = [t] /\
    row_total t
    = @py_add Binary64
        (flt_or0 (base_total interstate_invoice)) (tax_amount t).
Proof.
  apply (@single_row_total Binary64 interstate_invoice
           (new_tax "Output Tax IGST - K" 180 1180) eq_refl eq_refl).
Defined.

(** Witness of X11. *)
Lemma round_half_monotone_witness :
  (round_half (N := Exact) (10124 # 1000) 2
   <= round_half (N := Exact) (81 # 8) 2)%Q.
Proof.
  apply (@round_half_monotone (10124 # 1000) (81 # 8) 2).
  vm_compute. discriminate.
Defined.

(** Witness of X13: 10.5. *)
Lemma round_half_up_is_nearest_witness :
  ((21 # 2) - (1 # 2) < inject_Z (round_half_up (N := Exact) (21 # 2)) /\
   inject_Z (round_half_up (N := Exact) (21 # 2)) <= (21 # 2) + (1 # 2))%Q.
Proof.
  apply (@round_half_up_is_nearest (21 # 2)). vm_compute. discriminate.
Defined.

(** Witness of X14: -2.75. *)
Lemma round_half_up_truncates_negatives_witness :
  round_half_up (N := Exact) (- 11 # 4) = Q_int (- 11 # 4) /\
  ((- 11 # 4) <= inject_Z (round_half_up (N := Exact) (- 11 # 4)) /\
   inject_Z (round_half_up (N := Exact) (- 11 # 4)) < (- 11 # 4) + 1)%Q.
Proof.
  apply (@round_half_up_truncates_negatives (- 11 # 4)).
  vm_compute. discriminate.
Defined.

(** Witness of X17: the intrastate invoice. *)
Lemma rounded_totals_agree_witness :
  rounded_total (runQ intrastate_invoice)
  = base_rounded_total (runQ intrastate_invoice).
Proof.
  assert (H : (0 <= grand_total (runQ intrastate_invoice))%Q).
  { vm_compute. discriminate. }
  destruct (@rounded_totals_agree intrastate_invoice eq_refl H) as [_ [Hr _]].
  exact Hr.
Defined.

Lemma intrastate_items_nonneg :
  Forall nonneg_item (items (intrastate_invoice (N := Exact))).
Proof. repeat constructor; vm_compute; discriminate. Defined.

(** Witness of X19: the intrastate invoice. *)
Lemma taxes_never_reduce_totals_witness :
  (flt_or0 (N := Exact) (net_total intrastate_invoice)
   <= grand_total (runQ intrastate_invoice))%Q.
Proof.
  destruct (@taxes_never_reduce_totals intrastate_invoice
              intrastate_items_nonneg) as [_ [_ [H _]]].
  exact H.
Defined.

(** Witness of X21: the invoice with a freight charge only. *)
Lemma untaxed_invoice_witness :
  (total_taxes_and_charges (runQ freight_only_invoice) == 0)%Q.
Proof.
  assert (H : Forall (fun item : @LineItem Exact =>
                        no_rate (cgst_rate item) /\ no_rate (sgst_rate item)
                        /\ no_rate (igst_rate item))
                     (items freight_only_invoice)).
  { repeat constructor. }
  destruct (@untaxed_invoice freight_only_invoice H) as [Ht _].
  exact Ht.
Defined.

(** Witness of C4, amended: the intrastate invoice, whose integrated
    total is zero. *)
Lemma tax_rows_sum_to_total_witness :
  py_zero (py_sum (map igst_amount (items (run64 intrastate_invoice)))) /\
  py_same (py_sum (map tax_amount (taxes (run64 intrastate_invoice))))
          (total_taxes_and_charges (run64 intrastate_invoice)).
Proof.
  split; [vm_compute; reflexivity|].
  apply (tax_rows_sum_to_total intrastate_invoice).
  - repeat constructor; vm_compute; discriminate.
  - left. reflexivity.
  - left. reflexivity.
  - right. vm_compute. reflexivity.
  - right. right. vm_compute. reflexivity.
Defined.

(** Why one total has to be zero: with all three types taxed (0.1, 0.2
    and 0.3) and the rows in the order IGST, SGST, CGST, the rows sum
    to (0.3 + 0.2) + 0.1 and total_taxes_and_charges is
    (0.1 + 0.2) + 0.3, one unit in the last place apart. *)
Example three_types_order_matters :
  py_sum (map tax_amount (taxes (run64 three_types_invoice)))
  = (6 / 10)%float /\
  total_taxes_and_charges (run64 three_types_invoice)
  = PrimFloat.next_up (6 / 10)%float /\
  ~ py_same (py_sum (map tax_amount (taxes (run64 three_types_invoice))))
            (total_taxes_and_charges (run64 three_types_invoice)).
Proof.
  split; [vm_compute; reflexivity|]. split; [vm_compute; reflexivity|].
  intros [H|H].
  - revert H. floats_differ.
  - vm_compute in H. discriminate H.
Qed.


End MoreEvaluated.
